(** * Image selection policy of [PIPELINE/gee/export_three_dates_rgb8.js]

    The script asks Earth Engine for three Sentinel-2 images around a target
    date (BEFORE / ON / AFTER) over a square region.  This development embeds
    the decision logic of the script: the region arithmetic, the per-image
    metrics with their defaults, the three quality tiers, and the two
    selection policies.

    Conventions of the embedding
    - an [ee.Date] is its number of milliseconds since the epoch ([Z]);
    - an [ee.Number] is an exact rational ([Q]); the region arithmetic, which
      needs a square root, is done over the reals ([R]);
    - an [ee.ImageCollection] is the list of its images, in collection order;
    - a server-side [null] is [None];
    - a band is the list of the pixels the reducer samples inside the export
      polygon, a masked pixel being [None]. *)

From Stdlib Require Import ZArith QArith Qabs List Bool String Lia.
From Stdlib Require Lqa.
From Stdlib Require Reals Lra.
From Stdlib Require Import Ascii DecimalString.
Import ListNotations.

Local Open Scope Z_scope.

(** ** Earth Engine values used by the script *)

Module EE.

(** *** Dates *)

Definition msPerDay : Z := 86400000.

(** Days since 1970-01-01 of a proleptic Gregorian calendar date. *)
Definition daysFromCivil (y m d : Z) : Z :=
  let y' := if m <=? 2 then y - 1 else y in
  let era := y' / 400 in
  let yoe := y' - era * 400 in
  let mp := if 2 <? m then m - 3 else m + 9 in
  let doy := (153 * mp + 2) / 5 + d - 1 in
  let doe := yoe * 365 + yoe / 4 - yoe / 100 + doy in
  era * 146097 + doe - 719468.

(** The calendar date (year, month, day) of a number of days since the epoch. *)
Definition civilFromDays (z : Z) : Z * Z * Z :=
  let z := z + 719468 in
  let era := z / 146097 in
  let doe := z - era * 146097 in
  let yoe := (doe - doe / 1460 + doe / 36524 - doe / 146096) / 365 in
  let doy := doe - (365 * yoe + yoe / 4 - yoe / 100) in
  let mp := (5 * doy + 2) / 153 in
  let d := doy - (153 * mp + 2) / 5 + 1 in
  let m := if mp <? 10 then mp + 3 else mp - 9 in
  let y := yoe + era * 400 in
  (if m <=? 2 then y + 1 else y, m, d).

(** [ee.Date('YYYY-MM-DD')]: midnight UTC of that day. *)
Definition Date (y m d : Z) : Z := daysFromCivil y m d * msPerDay.

(** [date.advance(n, 'day')] *)
Definition advance (n : Z) (date : Z) : Z := date + n * msPerDay.

(** [date.format('YYYY-MM-dd')], as the triple of its fields. *)
Definition format (date : Z) : Z * Z * Z := civilFromDays (date / msPerDay).

(** [date.difference(start, 'day')]: a fractional number of days. *)
Definition difference (date start : Z) : Q := Qmake (date - start) 86400000.

(** *** Bands *)

Inductive Raster : Type :=
| Constant (v : Z)                   (* ee.Image.constant(v): v everywhere *)
| Sampled (px : list (option Z)).    (* the pixels inside the polygon *)

Definition unmasked (px : list (option Z)) : list Z :=
  flat_map (fun p => match p with Some v => [v] | None => [] end) px.

Definition sumZ (l : list Z) : Z := fold_right Z.add 0 l.

(** [band.reduceRegion({reducer: ee.Reducer.mean(), ...}).get(name)]:
    the mean of the unmasked pixels, [null] when there is none. *)
Definition reduceRegion_mean (band : option Raster) : option Q :=
  match band with
  | None => None
  | Some (Constant v) => Some (inject_Z v)
  | Some (Sampled px) =>
      match unmasked px with
      | [] => None
      | v :: vs => Some (Qmake (sumZ (v :: vs)) (Pos.of_nat (List.length (v :: vs))))
      end
  end.

(** [band.gt(t)]: 1 where the pixel exceeds [t], 0 elsewhere; the mask stays. *)
Definition gt (t : Z) (band : option Raster) : option Raster :=
  let f := fun v : Z => if t <? v then 1 else 0 in
  match band with
  | None => None
  | Some (Constant v) => Some (Constant (f v))
  | Some (Sampled px) => Some (Sampled (map (option_map f) px))
  end.

(** [band.mask()]: the mask as data, 1 where the pixel is valid, 0 where it
    is masked. *)
Definition mask (band : option Raster) : option Raster :=
  match band with
  | None => None
  | Some (Constant _) => Some (Constant 1)
  | Some (Sampled px) =>
      Some (Sampled (map (fun p : option Z =>
                            match p with Some _ => Some 1 | None => Some 0 end) px))
  end.

(** *** Images

    An [ee.Image] with the bands and the properties the script reads or
    sets.  A property or band the image does not carry is [None]. *)
Record Image : Type := mkImage {
  system_index : option string;          (* 'system:index' *)
  time_start : option Z;                 (* 'system:time_start' *)
  CLOUDY_PIXEL_PERCENTAGE : option Q;
  cloudprob : option Raster;             (* 'cloudprob': band 'probability' of
                                            the image saved by the join *)
  B2 : option Raster;                    (* band 'B2' *)
  probability : option Raster;           (* band 'probability' *)
  roiCloud : option Q;
  cloudFrac : option Q;
  validFrac : option Q;
  sortKey : option Q;
  absDiffDays : option Q;
  usedExactOnDay : option bool
}.

(** [ee.Image()]: no band, no property. *)
Definition Image_empty : Image :=
  mkImage None None None None None None None None None None None None.

(** ['system:time_start'] read as a number. *)
Definition system_time_start (img : Image) : option Q :=
  option_map inject_Z (time_start img).

Definition addBands_probability (r : Raster) (img : Image) : Image :=
  mkImage (system_index img) (time_start img) (CLOUDY_PIXEL_PERCENTAGE img)
    (cloudprob img) (B2 img) (Some r) (roiCloud img) (cloudFrac img)
    (validFrac img) (sortKey img) (absDiffDays img) (usedExactOnDay img).

Definition set_roiCloud (v : Q) (img : Image) : Image :=
  mkImage (system_index img) (time_start img) (CLOUDY_PIXEL_PERCENTAGE img)
    (cloudprob img) (B2 img) (probability img) (Some v) (cloudFrac img)
    (validFrac img) (sortKey img) (absDiffDays img) (usedExactOnDay img).

Definition set_cloudFrac (v : Q) (img : Image) : Image :=
  mkImage (system_index img) (time_start img) (CLOUDY_PIXEL_PERCENTAGE img)
    (cloudprob img) (B2 img) (probability img) (roiCloud img) (Some v)
    (validFrac img) (sortKey img) (absDiffDays img) (usedExactOnDay img).

Definition set_validFrac (v : Q) (img : Image) : Image :=
  mkImage (system_index img) (time_start img) (CLOUDY_PIXEL_PERCENTAGE img)
    (cloudprob img) (B2 img) (probability img) (roiCloud img) (cloudFrac img)
    (Some v) (sortKey img) (absDiffDays img) (usedExactOnDay img).

Definition set_sortKey (v : Q) (img : Image) : Image :=
  mkImage (system_index img) (time_start img) (CLOUDY_PIXEL_PERCENTAGE img)
    (cloudprob img) (B2 img) (probability img) (roiCloud img) (cloudFrac img)
    (validFrac img) (Some v) (absDiffDays img) (usedExactOnDay img).

Definition set_absDiffDays (v : Q) (img : Image) : Image :=
  mkImage (system_index img) (time_start img) (CLOUDY_PIXEL_PERCENTAGE img)
    (cloudprob img) (B2 img) (probability img) (roiCloud img) (cloudFrac img)
    (validFrac img) (sortKey img) (Some v) (usedExactOnDay img).

Definition set_usedExactOnDay (b : bool) (img : Image) : Image :=
  mkImage (system_index img) (time_start img) (CLOUDY_PIXEL_PERCENTAGE img)
    (cloudprob img) (B2 img) (probability img) (roiCloud img) (cloudFrac img)
    (validFrac img) (sortKey img) (absDiffDays img) (Some b).

(** *** Conditionals

    [ee.Algorithms.If(v, v, dflt)] on a number: [null] is false, and so is
    the number 0; every other number is true. *)
Definition Number_If (v : option Q) (dflt : Q) : Q :=
  match v with
  | Some q => if Qeq_bool q 0 then dflt else q
  | None => dflt
  end.

(** *** Collections *)

Definition ImageCollection : Type := list Image.

Definition size (col : ImageCollection) : Z := Z.of_nat (List.length col).

(** [col.filterDate(start, end)]: start inclusive, end exclusive. *)
Definition inDateRange (dateStart dateEnd : Z) (img : Image) : bool :=
  match time_start img with
  | Some t => (dateStart <=? t) && (t <? dateEnd)
  | None => false
  end.

Definition filterDate (dateStart dateEnd : Z) (col : ImageCollection)
  : ImageCollection :=
  filter (inDateRange dateStart dateEnd) col.

(** [ee.Filter.gte(prop, v)] and [ee.Filter.lte(prop, v)]; an image without
    the property does not pass. *)
Definition Filter_gte (prop : Image -> option Q) (v : Q) (img : Image) : bool :=
  match prop img with Some x => Qle_bool v x | None => false end.

Definition Filter_lte (prop : Image -> option Q) (v : Q) (img : Image) : bool :=
  match prop img with Some x => Qle_bool x v | None => false end.

(** [col.aggregate_min(prop)]: [null] when no image carries the property. *)
Definition min_opt (a : Q) (b : option Q) : Q :=
  match b with Some y => if Qle_bool a y then a else y | None => a end.

Fixpoint aggregate_min (prop : Image -> option Q) (col : ImageCollection)
  : option Q :=
  match col with
  | [] => None
  | img :: rest =>
      match prop img with
      | Some x => Some (min_opt x (aggregate_min prop rest))
      | None => aggregate_min prop rest
      end
  end.

(** [col.sort(prop, ascending)]: a stable sort on the property; images
    without the property go last. *)
Definition before (prop : Image -> option Q) (ascending : bool)
  (a b : Image) : bool :=
  match prop a, prop b with
  | Some x, Some y => if ascending then Qle_bool x y else Qle_bool y x
  | Some _, None => true
  | None, Some _ => false
  | None, None => true
  end.

Fixpoint insert (le : Image -> Image -> bool) (x : Image)
  (l : ImageCollection) : ImageCollection :=
  match l with
  | [] => [x]
  | y :: l' => if le x y then x :: l else y :: insert le x l'
  end.

Definition sort (prop : Image -> option Q) (ascending : bool)
  (col : ImageCollection) : ImageCollection :=
  fold_right (insert (before prop ascending)) [] col.

(** [col.first()]: [null] on an empty collection. *)
Definition first (col : ImageCollection) : option Image := hd_error col.

End EE.

(** ** The region: the arithmetic of the half side

    The polygon itself is built by Earth Engine
    ([transform], [buffer], [bounds]); only the number handed to [buffer] is
    computed by the script. *)

Module Region.
Import Reals.
Local Open Scope R_scope.

(** *** SETTINGS of the region *)

Definition exportBufferMeters : R := 30.

(** *** 10 km^2 square ROI *)

Definition squareAreaKm2 : R := 10.

(** [Math.sqrt(area * 1e6) / 2], for any configured area in km^2. *)
Definition halfSideOf (areaKm2 : R) : R :=
  sqrt (areaKm2 * 1000000) / 2.

Definition halfSideMeters : R := halfSideOf squareAreaKm2.

End Region.

(** ** The script *)

Import EE.

(** *** SETTINGS *)

Definition targetDate : Z := Date 2025 11 30.

Definition preLookbackDays : Z := 30.
Definition postForwardDays : Z := 10.

Definition cloudProbThresh : Z := 40.
Definition maxCloudFrac : Q := 0.02.
Definition minValidFrac : Q := 0.995.

Definition onFallbackNearestDays : Z := 3.

Definition cloudTieTolerance : Q := 3.

(** *** Metrics *)

Definition addCloudProb (img : Image) : Image :=
  let cp := cloudprob img in
  let cp := match cp with
            | Some band => band
            | None => Constant 100
            end in
  addBands_probability cp img.

Definition addMetrics (img : Image) : Image :=
  let prob := probability img in
  let roiCloud := reduceRegion_mean prob in
  let roiCloud := Number_If roiCloud 100 in
  let cloudFrac := reduceRegion_mean (gt cloudProbThresh prob) in
  let cloudFrac := Number_If cloudFrac 1 in
  let validFrac := reduceRegion_mean (mask (B2 img)) in
  let validFrac := Number_If validFrac 0 in
  set_validFrac validFrac (set_cloudFrac cloudFrac (set_roiCloud roiCloud img)).

Definition qualityFilter (col : ImageCollection) : ImageCollection :=
  filter (Filter_lte cloudFrac maxCloudFrac)
    (filter (Filter_gte validFrac minValidFrac) col).

(** [joined.filterDate(dateStart, dateEnd).map(addCloudProb).map(addMetrics)] *)
Definition scoredWindow (joined : ImageCollection) (dateStart dateEnd : Z)
  : ImageCollection :=
  map addMetrics (map addCloudProb (filterDate dateStart dateEnd joined)).

(** [col.filter(ee.Filter.gte('validFrac', minValidFrac))], the valid-only
    tier. *)
Definition validTier (colAll : ImageCollection) : ImageCollection :=
  filter (Filter_gte validFrac minValidFrac) colAll.

(** strict quality -> fallback valid-only -> fallback all; the script writes
    this chain once per pool. *)
Definition qualityTier (colAll : ImageCollection) : ImageCollection :=
  let colStrict := qualityFilter colAll in
  let colValid := validTier colAll in
  if 0 <? size colStrict then colStrict
  else if 0 <? size colValid then colValid else colAll.

(** The near-tie set [best]: within the tolerance of the minimum [roiCloud].
    On an empty tier [aggregate_min] is [null] and no image is kept. *)
Definition nearTie (col : ImageCollection) : ImageCollection :=
  match aggregate_min roiCloud col with
  | Some minCloud =>
      filter (Filter_lte roiCloud (minCloud + cloudTieTolerance)%Q) col
  | None => []
  end.

(** *** Selection

    [ee.Algorithms.If] picks one of its two branches; the result of a
    selection is [None] when the branch picked is [null]. *)

Definition selectMinCloudWithTimePref (joined : ImageCollection)
  (dateStart dateEnd : Z) (preferLatest : bool) : option Image :=
  let colAll := scoredWindow joined dateStart dateEnd in
  let col := qualityTier colAll in
  let empty := Image_empty in
  let best := nearTie col in
  let sorted := sort system_time_start (negb preferLatest) best in
  let chosen := first sorted in
  if 0 <? size colAll then chosen else Some empty.

(** The mapped function of [nearestAll]: distance to the target in days and
    the composite key.  Every image it is mapped over has a time (it passed
    [filterDate]) and a roiCloud (it passed [addMetrics]). *)
Definition addSortKey (tDate : Z) (img : Image) : Image :=
  match time_start img, roiCloud img with
  | Some t, Some c =>
      let d := Qabs (difference t tDate) in
      let key := (d * 1000 + c)%Q in
      set_absDiffDays d (set_sortKey key img)
  | _, _ => img
  end.

Definition nearestWindow (joined : ImageCollection) (tDate nearestDays : Z)
  : ImageCollection :=
  map (addSortKey tDate)
    (scoredWindow joined (advance (- nearestDays) tDate)
       (advance (nearestDays + 1) tDate)).

(** [.set('usedExactOnDay', ...)] applies to whichever image the conditional
    gives; there is no image to set it on when that is [null]. *)
Definition selectOnDayExactOrNearest (joined : ImageCollection)
  (tDate nearestDays : Z) : option Image :=
  let exactAll := scoredWindow joined tDate (advance 1 tDate) in
  let exact := qualityTier exactAll in
  let nearestAll := nearestWindow joined tDate nearestDays in
  let nearest := qualityTier nearestAll in
  let exactSize := size exactAll in
  let exactChosen := first (sort roiCloud true exact) in
  let nearestChosen := first (sort sortKey true nearest) in
  option_map (set_usedExactOnDay (0 <? exactSize))
    (if 0 <? exactSize then exactChosen else nearestChosen).

(** *** WINDOWS *)

Definition preStart : Z := advance (- preLookbackDays) targetDate.
Definition preEnd : Z := targetDate.

Definition postStart : Z := advance 1 targetDate.
Definition postEnd : Z := advance (postForwardDays + 1) targetDate.

(** *** PICK IMAGES *)

Definition beforeImg (joined : ImageCollection) : option Image :=
  selectMinCloudWithTimePref joined preStart preEnd true.

Definition onImg (joined : ImageCollection) : option Image :=
  selectOnDayExactOrNearest joined targetDate onFallbackNearestDays.

Definition afterImg (joined : ImageCollection) : option Image :=
  selectMinCloudWithTimePref joined postStart postEnd false.

(** *** EXPORTS

    The callback of [dateDict.evaluate]: three [Export.image.toDrive] calls
    named after the dates.  Of each call the strings and numbers are kept;
    the image and the region are the rendered image and [exportUtm]. *)

Definition outFolder : string := "SL_pairs".
Definition outScale : Z := 10.
Definition outCRS : string := "EPSG:32644".

Record DateDict : Type := mkDateDict {
  d_before : string;
  d_on : string;
  d_after : string
}.

Record ExportTask : Type := mkExportTask {
  description : string;
  folder : string;
  fileNamePrefix : string;
  scale : Z;
  crs : string;
  maxPixels : Z;
  fileFormat : string;
  skipEmptyTiles : bool;
  cloudOptimized : bool
}.

(** A number spliced into a string, as ['_pre' + preLookbackDays + 'd']. *)
Definition numberToString (n : Z) : string :=
  NilZero.string_of_int (Z.to_int n).

Definition exportTasks (d : DateDict) : list ExportTask :=
  [ mkExportTask
      ("BEFORE_RGB8_" ++ d_before d) outFolder
      ("BEFORE_RGB8_" ++ d_before d ++ "_pre"
         ++ numberToString preLookbackDays ++ "d")
      outScale outCRS (10 ^ 13) "GeoTIFF" true true;
    mkExportTask
      ("ON_RGB8_" ++ d_on d) outFolder
      ("ON_RGB8_" ++ d_on d ++ "_target")
      outScale outCRS (10 ^ 13) "GeoTIFF" true true;
    mkExportTask
      ("AFTER_RGB8_" ++ d_after d) outFolder
      ("AFTER_RGB8_" ++ d_after d ++ "_post"
         ++ numberToString postForwardDays ++ "d")
      outScale outCRS (10 ^ 13) "GeoTIFF" true true ]%string.

(** [date.format('YYYYMMdd')], for years 0 to 9999. *)
Definition digit (n : Z) : ascii := ascii_of_nat (Z.to_nat (48 + n mod 10)).

Definition pad2 (n : Z) : string :=
  String (digit (n / 10)) (String (digit n) EmptyString).

Definition pad4 (n : Z) : string :=
  String (digit (n / 1000)) (String (digit (n / 100)) (pad2 n)).

Definition formatYYYYMMdd (date : Z) : string :=
  let '(y, m, d) := format date in (pad4 y ++ pad2 m ++ pad2 d)%string.

(** ** Sample collections

    Small collections of [joined] images on which the definitions above are
    evaluated.  A pixel list stands for the pixels inside the export polygon. *)

Definition msPerHour : Z := 3600000.

(** An image of [joined]: acquisition time, the probability band of its
    s2cloudless match (if the join saved one), and its B2 band. *)
Definition scene (t : Z) (cp : option (list (option Z)))
  (b2 : list (option Z)) : Image :=
  mkImage None (Some t) None (option_map Sampled cp) (Some (Sampled b2))
    None None None None None None None.

(** Five days before the target a hazy scene (probability 98 everywhere);
    one day before it a scene without cloud probabilities. *)
Definition hazyThenUnscored : ImageCollection :=
  [ scene (advance (-5) targetDate) (Some [Some 98; Some 98]) [Some 700; Some 650];
    scene (advance (-1) targetDate) None [Some 720; Some 640] ].

(** One scene, ten days before the target. *)
Definition tenDaysBefore : ImageCollection :=
  [ scene (advance (-10) targetDate) (Some [Some 5; Some 7]) [Some 700; Some 650] ].

(** No scene on the target day; one a day after it (probability 90
    everywhere), the other an hour later still (one pixel in four above the
    threshold, mean probability 12). *)
Definition hourApart : ImageCollection :=
  [ scene (advance 1 targetDate) (Some [Some 90; Some 90]) [Some 700; Some 650];
    scene (advance 1 targetDate + msPerHour) (Some [Some 45; Some 1; Some 1; Some 1])
      [Some 710; Some 655] ].

(** No scene on the target day; one two days after it (probability 10), one
    three days after it (probability 1). *)
Definition twoAndThreeDays : ImageCollection :=
  [ scene (advance 3 targetDate) (Some [Some 1; Some 1]) [Some 700; Some 650];
    scene (advance 2 targetDate) (Some [Some 10; Some 10]) [Some 710; Some 655] ].

(** A cloudy scene on the target day (five hours in) and a clear one the day
    before. *)
Definition exactAndNearer : ImageCollection :=
  [ scene (advance (-1) targetDate + 5 * msPerHour) (Some [Some 1; Some 1])
      [Some 700; Some 650];
    scene (targetDate + 5 * msPerHour) (Some [Some 30; Some 30])
      [Some 710; Some 655] ].

(** The candidates the two scenes of [hazyThenUnscored] become once scored. *)
Definition hazyCandidate : Image :=
  addMetrics (addCloudProb
    (scene (advance (-5) targetDate) (Some [Some 98; Some 98]) [Some 700; Some 650])).

Definition unscoredCandidate : Image :=
  addMetrics (addCloudProb
    (scene (advance (-1) targetDate) None [Some 720; Some 640])).

(** The candidates of the nearest pool of [hourApart]. *)
Definition dayAfterCandidate : Image :=
  addSortKey targetDate (addMetrics (addCloudProb
    (scene (advance 1 targetDate) (Some [Some 90; Some 90]) [Some 700; Some 650]))).

Definition hourLaterCandidate : Image :=
  addSortKey targetDate (addMetrics (addCloudProb
    (scene (advance 1 targetDate + msPerHour) (Some [Some 45; Some 1; Some 1; Some 1])
       [Some 710; Some 655]))).

(** The candidates of the nearest pool of [twoAndThreeDays]. *)
Definition threeDaysCandidate : Image :=
  addSortKey targetDate (addMetrics (addCloudProb
    (scene (advance 3 targetDate) (Some [Some 1; Some 1]) [Some 700; Some 650]))).

Definition twoDaysCandidate : Image :=
  addSortKey targetDate (addMetrics (addCloudProb
    (scene (advance 2 targetDate) (Some [Some 10; Some 10]) [Some 710; Some 655]))).

(** ** Well-formed input

    The probability band of s2cloudless holds values from 0 to 100. *)
Definition probabilityInRange (img : Image) : Prop :=
  match cloudprob img with
  | Some (Constant v) => 0 <= v <= 100
  | Some (Sampled px) => Forall (fun v => 0 <= v <= 100) (unmasked px)
  | None => True
  end.

(** ** Rasters by range *)

(** Every unmasked value of the raster lies between [lo] and [hi]. *)
Definition rasterWithin (lo hi : Z) (r : Raster) : Prop :=
  match r with
  | Constant v => lo <= v <= hi
  | Sampled px => Forall (fun v => lo <= v <= hi) (unmasked px)
  end.

(** No unmasked value of the raster exceeds [t]. *)
Definition noPixelAbove (t : Z) (r : Raster) : Prop :=
  match r with
  | Constant v => v <= t
  | Sampled px => Forall (fun v => v <= t) (unmasked px)
  end.

(** A scene two days before the target: fifty probability pixels, one of
    them above the threshold. *)
Definition nearlyClear : ImageCollection :=
  [ scene (advance (-2) targetDate) (Some (repeat (Some 5) 49 ++ [Some 41]))
      [Some 700; Some 650] ].

(** A scene three days before the target without any pixel above the
    threshold. *)
Definition clearScene : Image :=
  scene (advance (-3) targetDate) (Some [Some 5; Some 7]) [Some 700; Some 650].

(** An older scene with low probabilities and a newer hazy one, both valid. *)
Definition clearOlderHazyNewer : ImageCollection :=
  [ scene (advance (-5) targetDate) (Some [Some 98; Some 98]) [Some 700; Some 650];
    scene (advance (-10) targetDate) (Some [Some 20; Some 20]) [Some 720; Some 640] ].

(** A hazy scene two days before the target and a scene two days after it. *)
Definition beforeAndAfter : ImageCollection :=
  [ scene (advance (-2) targetDate) (Some [Some 60; Some 60]) [Some 700; Some 650];
    scene (advance 2 targetDate) (Some [Some 70; Some 70]) [Some 720; Some 640] ].

(** * Properties *)

(** ** Lists, sorting and minima *)

Lemma size_pos_iff (col : ImageCollection) : (0 <? size col) = true <-> col <> [].
Proof.
  unfold size. destruct col as [|x l]; simpl.
  - split; [discriminate | intros H; now contradiction H].
  - split; [discriminate | intros _; apply Z.ltb_lt; lia].
Qed.

Lemma size_pos_false_iff (col : ImageCollection) :
  (0 <? size col) = false <-> col = [].
Proof.
  destruct col as [|x l]; unfold size; simpl.
  - split; reflexivity.
  - split; [|discriminate]. intros H. apply Z.ltb_ge in H. lia.
Qed.

Lemma insert_In (le : Image -> Image -> bool) (x y : Image) (l : ImageCollection) :
  In y (insert le x l) <-> y = x \/ In y l.
Proof.
  induction l as [|z l IH]; simpl.
  - intuition.
  - destruct (le x z); simpl; rewrite ?IH; intuition.
Qed.

Lemma sort_In (prop : Image -> option Q) (asc : bool) (x : Image)
  (col : ImageCollection) : In x (sort prop asc col) <-> In x col.
Proof.
  unfold sort. induction col as [|y l IH]; simpl.
  - tauto.
  - rewrite insert_In, IH. intuition.
Qed.

Section Least.
Variable le : Image -> Image -> bool.
Hypothesis le_total : forall a b, le a b = true \/ le b a = true.
Hypothesis le_trans :
  forall a b c, le a b = true -> le b c = true -> le a c = true.

(** The head of an insertion-sorted list is below every element. *)
Lemma sorted_head_least (col : ImageCollection) (h : Image) :
  hd_error (fold_right (insert le) [] col) = Some h ->
  forall x, In x col -> le h x = true.
Proof.
  revert h. induction col as [|a l IH]; intros h Hh x Hx.
  - destruct Hx.
  - simpl in Hh. destruct (fold_right (insert le) [] l) as [|y s] eqn:Es.
    + simpl in Hh. injection Hh as <-.
      destruct l as [|b l'].
      * destruct Hx as [<-|[]]. destruct (le_total a a); assumption.
      * exfalso. simpl in Es.
        destruct (fold_right (insert le) [] l') as [|z s']; simpl in Es;
          [discriminate | destruct (le b z); discriminate].
    + simpl in Hh. destruct (le a y) eqn:Eay; simpl in Hh; injection Hh as <-.
      * destruct Hx as [<-|Hx].
        -- destruct (le_total a a); assumption.
        -- apply le_trans with y; [assumption|]. now apply IH.
      * destruct Hx as [<-|Hx].
        -- destruct (le_total y a) as [H|H]; [assumption | congruence].
        -- now apply IH.
Qed.
End Least.

Lemma before_total (prop : Image -> option Q) (asc : bool) (a b : Image) :
  before prop asc a b = true \/ before prop asc b a = true.
Proof.
  unfold before. destruct (prop a) as [x|], (prop b) as [y|]; auto.
  destruct (Qlt_le_dec x y) as [H|H].
  - apply Qlt_le_weak in H. apply Qle_bool_iff in H.
    destruct asc; [left | right]; exact H.
  - apply Qle_bool_iff in H. destruct asc; [right | left]; exact H.
Qed.

Lemma before_trans (prop : Image -> option Q) (asc : bool) (a b c : Image) :
  before prop asc a b = true -> before prop asc b c = true ->
  before prop asc a c = true.
Proof.
  unfold before.
  destruct (prop a) as [x|], (prop b) as [y|], (prop c) as [z|];
    try discriminate; auto.
  destruct asc; rewrite !Qle_bool_iff; intros H1 H2.
  - now apply Qle_trans with y.
  - now apply Qle_trans with y.
Qed.

(** What [col.sort(prop, asc).first()] returns: an image of the collection
    that comes before every other one in the requested order. *)
Lemma sort_first_least (prop : Image -> option Q) (asc : bool)
  (col : ImageCollection) (c : Image) :
  first (sort prop asc col) = Some c ->
  In c col /\ forall x, In x col -> before prop asc c x = true.
Proof.
  intros H. split.
  - apply (sort_In prop asc). unfold first in H.
    destruct (sort prop asc col); [discriminate | injection H as <-; now left].
  - apply sorted_head_least.
    + apply before_total.
    + apply before_trans.
    + exact H.
Qed.

Lemma sort_first_some (prop : Image -> option Q) (asc : bool)
  (col : ImageCollection) :
  col <> [] -> exists c, first (sort prop asc col) = Some c.
Proof.
  intros H. unfold first. destruct (sort prop asc col) as [|h t] eqn:E.
  - exfalso. destruct col as [|x l]; [now apply H|].
    assert (Hx : In x (sort prop asc (x :: l))) by (apply sort_In; now left).
    rewrite E in Hx. destruct Hx.
  - now exists h.
Qed.

Lemma min_opt_le_l (a : Q) (b : option Q) : (min_opt a b <= a)%Q.
Proof.
  unfold min_opt. destruct b as [y|]; [|apply Qle_refl].
  destruct (Qle_bool a y) eqn:E; [apply Qle_refl|].
  destruct (Qlt_le_dec y a) as [H|H]; [now apply Qlt_le_weak|].
  apply Qle_bool_iff in H. congruence.
Qed.

Lemma min_opt_le_r (a y : Q) : (min_opt a (Some y) <= y)%Q.
Proof.
  unfold min_opt. destruct (Qle_bool a y) eqn:E; [|apply Qle_refl].
  now apply Qle_bool_iff.
Qed.

(** [aggregate_min] is a lower bound of the property over the collection... *)
Lemma aggregate_min_le (prop : Image -> option Q) (col : ImageCollection) (m : Q) :
  aggregate_min prop col = Some m ->
  forall x v, In x col -> prop x = Some v -> (m <= v)%Q.
Proof.
  revert m. induction col as [|a l IH]; intros m Hm x v Hx Hv; [destruct Hx|].
  simpl in Hm. destruct Hx as [<-|Hx].
  - rewrite Hv in Hm. injection Hm as <-. apply min_opt_le_l.
  - destruct (prop a) as [w|].
    + injection Hm as <-. destruct (aggregate_min prop l) as [m'|] eqn:E.
      * apply Qle_trans with m'; [apply min_opt_le_r | now apply (IH m' eq_refl x v)].
      * exfalso. clear IH. induction l as [|b l IHl]; [destruct Hx|].
        simpl in E. destruct Hx as [<-|Hx].
        -- rewrite Hv in E. discriminate.
        -- destruct (prop b); [discriminate | now apply IHl].
    + now apply (IH m Hm x v).
Qed.

(** ... and it is the value of one of its images. *)
Lemma aggregate_min_attained (prop : Image -> option Q) (col : ImageCollection)
  (m : Q) :
  aggregate_min prop col = Some m -> exists x, In x col /\ prop x = Some m.
Proof.
  revert m. induction col as [|a l IH]; intros m Hm; [discriminate|].
  simpl in Hm. destruct (prop a) as [w|] eqn:Ea.
  - injection Hm as <-. unfold min_opt.
    destruct (aggregate_min prop l) as [m'|].
    + destruct (Qle_bool w m').
      * exists a. split; [now left | assumption].
      * destruct (IH m' eq_refl) as (x & Hx & Hp). exists x. split; [now right | assumption].
    + exists a. split; [now left | assumption].
  - destruct (IH m Hm) as (x & Hx & Hp). exists x. split; [now right | assumption].
Qed.

Lemma aggregate_min_some (prop : Image -> option Q) (col : ImageCollection)
  (x : Image) (v : Q) :
  In x col -> prop x = Some v -> exists m, aggregate_min prop col = Some m.
Proof.
  induction col as [|a l IH]; intros Hx Hv; [destruct Hx|].
  simpl. destruct (prop a) as [w|] eqn:Ea; [eexists; reflexivity|].
  destruct Hx as [->|Hx]; [congruence | now apply IH].
Qed.

(** ** Metrics and windows *)

Lemma addMetrics_roiCloud (img : Image) :
  roiCloud (addMetrics img) =
  Some (Number_If (reduceRegion_mean (probability img)) 100).
Proof. reflexivity. Qed.

Lemma addMetrics_cloudFrac (img : Image) :
  cloudFrac (addMetrics img) =
  Some (Number_If (reduceRegion_mean (gt cloudProbThresh (probability img))) 1).
Proof. reflexivity. Qed.

Lemma addMetrics_validFrac (img : Image) :
  validFrac (addMetrics img) =
  Some (Number_If (reduceRegion_mean (mask (B2 img))) 0).
Proof. reflexivity. Qed.

Lemma scored_time_start (img : Image) :
  time_start (addMetrics (addCloudProb img)) = time_start img.
Proof. reflexivity. Qed.

Lemma inDateRange_iff (dateStart dateEnd : Z) (img : Image) :
  inDateRange dateStart dateEnd img = true <->
  exists t, time_start img = Some t /\ dateStart <= t < dateEnd.
Proof.
  unfold inDateRange. destruct (time_start img) as [t|].
  - rewrite andb_true_iff, Z.leb_le, Z.ltb_lt. split.
    + intros H. now exists t.
    + intros (t' & [= <-] & H). exact H.
  - split; [discriminate | intros (t & [=] & _)].
Qed.

(** Every candidate of a scored window comes from an image of [joined]
    acquired inside the window. *)
Lemma scoredWindow_In (joined : ImageCollection) (dateStart dateEnd : Z)
  (c : Image) :
  In c (scoredWindow joined dateStart dateEnd) <->
  exists img, In img joined /\ inDateRange dateStart dateEnd img = true /\
              c = addMetrics (addCloudProb img).
Proof.
  unfold scoredWindow, filterDate. rewrite map_map, in_map_iff. split.
  - intros (img & <- & H). apply filter_In in H. now exists img.
  - intros (img & H1 & H2 & ->). exists img. split; [reflexivity|].
    now apply filter_In.
Qed.

Lemma scoredWindow_time (joined : ImageCollection) (dateStart dateEnd : Z)
  (c : Image) :
  In c (scoredWindow joined dateStart dateEnd) ->
  exists t, time_start c = Some t /\ dateStart <= t < dateEnd.
Proof.
  intros H. apply scoredWindow_In in H. destruct H as (img & _ & H & ->).
  rewrite scored_time_start. now apply inDateRange_iff.
Qed.

Lemma scoredWindow_roiCloud (joined : ImageCollection) (dateStart dateEnd : Z)
  (c : Image) :
  In c (scoredWindow joined dateStart dateEnd) -> exists r, roiCloud c = Some r.
Proof.
  intros H. apply scoredWindow_In in H. destruct H as (img & _ & _ & ->).
  eexists. apply addMetrics_roiCloud.
Qed.

(** ** Quality tiers *)

Lemma qualityFilter_validTier (col : ImageCollection) :
  qualityFilter col = filter (Filter_lte cloudFrac maxCloudFrac) (validTier col).
Proof. reflexivity. Qed.

(** The tier that is used is one of the three, and the first non-empty one. *)
Lemma qualityTier_cases (colAll : ImageCollection) :
  (qualityFilter colAll <> [] /\ qualityTier colAll = qualityFilter colAll) \/
  (qualityFilter colAll = [] /\ validTier colAll <> [] /\
   qualityTier colAll = validTier colAll) \/
  (qualityFilter colAll = [] /\ validTier colAll = [] /\
   qualityTier colAll = colAll).
Proof.
  unfold qualityTier.
  destruct (0 <? size (qualityFilter colAll)) eqn:E1.
  - left. apply size_pos_iff in E1. now split.
  - right. apply size_pos_false_iff in E1.
    destruct (0 <? size (validTier colAll)) eqn:E2.
    + left. apply size_pos_iff in E2. now repeat split.
    + right. apply size_pos_false_iff in E2. now repeat split.
Qed.

Lemma qualityTier_incl (colAll : ImageCollection) :
  incl (qualityTier colAll) colAll.
Proof.
  destruct (qualityTier_cases colAll) as [[_ ->]|[(_ & _ & ->)|(_ & _ & ->)]].
  - unfold qualityFilter. intros x Hx.
    apply filter_In in Hx. destruct Hx as [Hx _].
    apply filter_In in Hx. now destruct Hx.
  - unfold validTier. intros x Hx. apply filter_In in Hx. now destruct Hx.
  - apply incl_refl.
Qed.

Lemma qualityTier_nonempty (colAll : ImageCollection) :
  colAll <> [] -> qualityTier colAll <> [].
Proof.
  intros H.
  destruct (qualityTier_cases colAll) as [[H1 ->]|[(_ & H1 & ->)|(_ & _ & ->)]];
    assumption.
Qed.

(** ** The near-tie set *)

Lemma cloudTieTolerance_nonneg : (0 <= cloudTieTolerance)%Q.
Proof. discriminate. Qed.

Lemma nearTie_In (col : ImageCollection) (minCloud : Q) (c : Image) :
  aggregate_min roiCloud col = Some minCloud ->
  (In c (nearTie col) <->
   In c col /\ exists r, roiCloud c = Some r /\
                         (r <= minCloud + cloudTieTolerance)%Q).
Proof.
  intros Hm. unfold nearTie. rewrite Hm, filter_In. unfold Filter_lte.
  split.
  - intros [H1 H2]. split; [assumption|].
    destruct (roiCloud c) as [r|]; [|discriminate].
    exists r. split; [reflexivity | now apply Qle_bool_iff].
  - intros [H1 (r & -> & H2)]. split; [assumption | now apply Qle_bool_iff].
Qed.

(** One run of [selectMinCloudWithTimePref] on a window that has at least
    one candidate: the minimum exists and is attained inside the near-tie
    set, and the image returned is the first of that set in time order. *)
Lemma select_nonempty (joined : ImageCollection) (dateStart dateEnd : Z)
  (preferLatest : bool) :
  scoredWindow joined dateStart dateEnd <> [] ->
  let col := qualityTier (scoredWindow joined dateStart dateEnd) in
  exists chosen minCloud,
    selectMinCloudWithTimePref joined dateStart dateEnd preferLatest = Some chosen /\
    aggregate_min roiCloud col = Some minCloud /\
    (exists c, In c (nearTie col) /\ roiCloud c = Some minCloud) /\
    first (sort system_time_start (negb preferLatest) (nearTie col)) = Some chosen /\
    In chosen (nearTie col) /\
    (forall c, In c (nearTie col) ->
               before system_time_start (negb preferLatest) chosen c = true).
Proof.
  intros Hne col. unfold selectMinCloudWithTimePref.
  set (colAll := scoredWindow joined dateStart dateEnd) in *.
  fold col.
  assert (Hcol : col <> []) by now apply qualityTier_nonempty.
  assert (Hsc : forall c, In c col -> exists r, roiCloud c = Some r).
  { intros c Hc. apply qualityTier_incl in Hc.
    now apply scoredWindow_roiCloud in Hc. }
  assert (H0 : exists c0, In c0 col).
  { destruct col as [|c0 l]; [now contradiction Hcol | exists c0; now left]. }
  destruct H0 as (c0 & H0).
  destruct (Hsc c0 H0) as (r0 & Hr0).
  destruct (aggregate_min_some roiCloud col c0 r0 H0 Hr0) as (m & Hm).
  destruct (aggregate_min_attained roiCloud col m Hm) as (cm & Hcm & Hrm).
  assert (Hbest : In cm (nearTie col)).
  { apply (nearTie_In col m cm Hm). split; [assumption|].
    exists m. split; [assumption|].
    pose proof cloudTieTolerance_nonneg. Lqa.lra. }
  assert (Hbne : nearTie col <> []) by (intros E; rewrite E in Hbest; destruct Hbest).
  destruct (sort_first_some system_time_start (negb preferLatest) _ Hbne)
    as (chosen & Hch).
  destruct (sort_first_least _ _ _ _ Hch) as [Hin Hord].
  exists chosen, m. repeat split; try assumption.
  - apply size_pos_iff in Hne. rewrite Hne. exact Hch.
  - now exists cm.
Qed.

Lemma filter_lte_In (prop : Image -> option Q) (v : Q) (col : ImageCollection)
  (c : Image) :
  In c (filter (Filter_lte prop v) col) <->
  In c col /\ exists x, prop c = Some x /\ (x <= v)%Q.
Proof.
  rewrite filter_In. unfold Filter_lte. split.
  - intros [H1 H2]. split; [assumption|].
    destruct (prop c) as [x|]; [|discriminate].
    exists x. split; [reflexivity | now apply Qle_bool_iff].
  - intros [H1 (x & -> & H2)]. split; [assumption | now apply Qle_bool_iff].
Qed.

Lemma filter_gte_In (prop : Image -> option Q) (v : Q) (col : ImageCollection)
  (c : Image) :
  In c (filter (Filter_gte prop v) col) <->
  In c col /\ exists x, prop c = Some x /\ (v <= x)%Q.
Proof.
  rewrite filter_In. unfold Filter_gte. split.
  - intros [H1 H2]. split; [assumption|].
    destruct (prop c) as [x|]; [|discriminate].
    exists x. split; [reflexivity | now apply Qle_bool_iff].
  - intros [H1 (x & -> & H2)]. split; [assumption | now apply Qle_bool_iff].
Qed.

(** ** The claims about the tiers and the before/after policy *)

(** C4. The three quality tiers are nested: the strict tier (validFrac >=
    minValidFrac and cloudFrac <= maxCloudFrac) is included in the valid-only
    tier (validFrac >= minValidFrac), which is included in the unfiltered
    pool; and the tier used for selection is the first of the three that is
    not empty. *)
Theorem C4_tiers_nested_first_nonempty (colAll : ImageCollection) :
  incl (qualityFilter colAll) (validTier colAll) /\
  incl (validTier colAll) colAll /\
  (forall c, In c (qualityFilter colAll) <->
     In c colAll /\
     (exists v, validFrac c = Some v /\ (minValidFrac <= v)%Q) /\
     (exists f, cloudFrac c = Some f /\ (f <= maxCloudFrac)%Q)) /\
  (forall c, In c (validTier colAll) <->
     In c colAll /\ exists v, validFrac c = Some v /\ (minValidFrac <= v)%Q) /\
  ((qualityFilter colAll <> [] /\ qualityTier colAll = qualityFilter colAll) \/
   (qualityFilter colAll = [] /\ validTier colAll <> [] /\
    qualityTier colAll = validTier colAll) \/
   (qualityFilter colAll = [] /\ validTier colAll = [] /\
    qualityTier colAll = colAll)).
Proof.
  split; [|split; [|split; [|split]]].
  - rewrite qualityFilter_validTier. intros c Hc.
    apply filter_In in Hc. now destruct Hc.
  - intros c Hc. unfold validTier in Hc. apply filter_In in Hc. now destruct Hc.
  - intros c. unfold qualityFilter. rewrite filter_lte_In, filter_gte_In. tauto.
  - intros c. unfold validTier. apply filter_gte_In.
  - apply qualityTier_cases.
Qed.

(** C5. On a window with at least one candidate, the image chosen by
    selectMinCloudWithTimePref has roiCloud <= (minimum roiCloud over the
    winning tier) + cloudTieTolerance.  The before-window and the
    after-window are the instances [preStart preEnd true] and
    [postStart postEnd false]. *)
Theorem C5_chosen_within_tolerance (joined : ImageCollection)
  (dateStart dateEnd : Z) (preferLatest : bool) :
  scoredWindow joined dateStart dateEnd <> [] ->
  exists chosen r minCloud,
    selectMinCloudWithTimePref joined dateStart dateEnd preferLatest
      = Some chosen /\
    In chosen (qualityTier (scoredWindow joined dateStart dateEnd)) /\
    roiCloud chosen = Some r /\
    (exists c, In c (qualityTier (scoredWindow joined dateStart dateEnd)) /\
               roiCloud c = Some minCloud) /\
    (forall c v, In c (qualityTier (scoredWindow joined dateStart dateEnd)) ->
                 roiCloud c = Some v -> (minCloud <= v)%Q) /\
    (r <= minCloud + cloudTieTolerance)%Q.
Proof.
  intros Hne.
  destruct (select_nonempty joined dateStart dateEnd preferLatest Hne)
    as (chosen & m & Hsel & Hm & (cm & Hcm & Hrm) & _ & Hin & _).
  apply (nearTie_In _ m chosen Hm) in Hin. destruct Hin as (Hin & r & Hr & Hle).
  apply (nearTie_In _ m cm Hm) in Hcm. destruct Hcm as (Hcm & _).
  exists chosen, r, m. repeat split; try assumption.
  - now exists cm.
  - intros c v Hc Hv. exact (aggregate_min_le roiCloud _ m Hm c v Hc Hv).
Qed.

Lemma C5_before_window_sample :
  exists chosen r minCloud,
    beforeImg hazyThenUnscored = Some chosen /\
    In chosen (qualityTier (scoredWindow hazyThenUnscored preStart preEnd)) /\
    roiCloud chosen = Some r /\
    (exists c, In c (qualityTier (scoredWindow hazyThenUnscored preStart preEnd)) /\
               roiCloud c = Some minCloud) /\
    (forall c v, In c (qualityTier (scoredWindow hazyThenUnscored preStart preEnd)) ->
                 roiCloud c = Some v -> (minCloud <= v)%Q) /\
    (r <= minCloud + cloudTieTolerance)%Q.
Proof.
  apply (C5_chosen_within_tolerance hazyThenUnscored preStart preEnd true).
  vm_compute. discriminate.
Defined.

Lemma before_time_order (asc : bool) (a b : Image) (ta tb : Z) :
  time_start a = Some ta -> time_start b = Some tb ->
  before system_time_start asc a b = true ->
  if asc then ta <= tb else tb <= ta.
Proof.
  unfold before, system_time_start. intros -> ->. simpl.
  destruct asc; rewrite Qle_bool_iff, <- Zle_Qle; trivial.
Qed.

(** C6. On a window with at least one candidate, selectMinCloudWithTimePref
    returns, out of the near-tie set, a candidate with the latest acquisition
    time when preferLatest is true (the before-window) and one with the
    earliest acquisition time when it is false (the after-window). *)
Theorem C6_time_preference (joined : ImageCollection)
  (dateStart dateEnd : Z) (preferLatest : bool) :
  scoredWindow joined dateStart dateEnd <> [] ->
  exists chosen t,
    selectMinCloudWithTimePref joined dateStart dateEnd preferLatest
      = Some chosen /\
    In chosen (nearTie (qualityTier (scoredWindow joined dateStart dateEnd))) /\
    time_start chosen = Some t /\
    forall c t',
      In c (nearTie (qualityTier (scoredWindow joined dateStart dateEnd))) ->
      time_start c = Some t' ->
      if preferLatest then t' <= t else t <= t'.
Proof.
  intros Hne.
  destruct (select_nonempty joined dateStart dateEnd preferLatest Hne)
    as (chosen & m & Hsel & Hm & _ & _ & Hin & Hord).
  assert (Hw : In chosen (scoredWindow joined dateStart dateEnd)).
  { apply qualityTier_incl. now apply (nearTie_In _ m chosen Hm) in Hin. }
  destruct (scoredWindow_time _ _ _ _ Hw) as (t & Ht & _).
  exists chosen, t. repeat split; try assumption.
  intros c t' Hc Ht'.
  pose proof (before_time_order _ _ _ _ _ Ht Ht' (Hord c Hc)) as H.
  destruct preferLatest; exact H.
Qed.

Lemma C6_before_window_sample :
  exists chosen t,
    beforeImg hazyThenUnscored = Some chosen /\
    In chosen (nearTie (qualityTier (scoredWindow hazyThenUnscored preStart preEnd))) /\
    time_start chosen = Some t /\
    forall c t',
      In c (nearTie (qualityTier (scoredWindow hazyThenUnscored preStart preEnd))) ->
      time_start c = Some t' -> t' <= t.
Proof.
  apply (C6_time_preference hazyThenUnscored preStart preEnd true).
  vm_compute. discriminate.
Defined.

(** C10. In selectMinCloudWithTimePref, whenever the window has at least one
    candidate, the near-tie set is not empty: the candidate that attains the
    minimum roiCloud satisfies the bound because the tolerance is not
    negative.  Hence [first] of the sorted near-tie set is an image, and it
    is what the selection returns. *)
Theorem C10_near_tie_nonempty (joined : ImageCollection)
  (dateStart dateEnd : Z) (preferLatest : bool) :
  scoredWindow joined dateStart dateEnd <> [] ->
  exists minCloud cmin chosen,
    aggregate_min roiCloud (qualityTier (scoredWindow joined dateStart dateEnd))
      = Some minCloud /\
    roiCloud cmin = Some minCloud /\
    (minCloud <= minCloud + cloudTieTolerance)%Q /\
    In cmin (nearTie (qualityTier (scoredWindow joined dateStart dateEnd))) /\
    nearTie (qualityTier (scoredWindow joined dateStart dateEnd)) <> [] /\
    first (sort system_time_start (negb preferLatest)
             (nearTie (qualityTier (scoredWindow joined dateStart dateEnd))))
      = Some chosen /\
    selectMinCloudWithTimePref joined dateStart dateEnd preferLatest
      = Some chosen.
Proof.
  intros Hne.
  destruct (select_nonempty joined dateStart dateEnd preferLatest Hne)
    as (chosen & m & Hsel & Hm & (cm & Hcm & Hrm) & Hfirst & Hin & _).
  exists m, cm, chosen. repeat split; try assumption.
  - pose proof cloudTieTolerance_nonneg. Lqa.lra.
  - intros E. rewrite E in Hin. destruct Hin.
Qed.

Lemma C10_after_window_sample :
  exists minCloud cmin chosen,
    aggregate_min roiCloud (qualityTier (scoredWindow twoAndThreeDays postStart postEnd))
      = Some minCloud /\
    roiCloud cmin = Some minCloud /\
    (minCloud <= minCloud + cloudTieTolerance)%Q /\
    In cmin (nearTie (qualityTier (scoredWindow twoAndThreeDays postStart postEnd))) /\
    nearTie (qualityTier (scoredWindow twoAndThreeDays postStart postEnd)) <> [] /\
    first (sort system_time_start (negb false)
             (nearTie (qualityTier (scoredWindow twoAndThreeDays postStart postEnd))))
      = Some chosen /\
    afterImg twoAndThreeDays = Some chosen.
Proof.
  apply (C10_near_tie_nonempty twoAndThreeDays postStart postEnd false).
  vm_compute. discriminate.
Defined.

(** ** Empty windows *)

Lemma selectMinCloudWithTimePref_empty (joined : ImageCollection)
  (dateStart dateEnd : Z) (preferLatest : bool) :
  scoredWindow joined dateStart dateEnd = [] ->
  selectMinCloudWithTimePref joined dateStart dateEnd preferLatest
    = Some Image_empty.
Proof.
  intros H. unfold selectMinCloudWithTimePref. rewrite H. reflexivity.
Qed.

Lemma selectOnDayExactOrNearest_empty (joined : ImageCollection)
  (tDate nearestDays : Z) :
  scoredWindow joined tDate (advance 1 tDate) = [] ->
  nearestWindow joined tDate nearestDays = [] ->
  selectOnDayExactOrNearest joined tDate nearestDays = None.
Proof.
  intros H1 H2. unfold selectOnDayExactOrNearest. rewrite H1, H2. reflexivity.
Qed.

(** C3. A window with no candidate gives the fully masked placeholder, an
    image carrying none of roiCloud, cloudFrac and validFrac.  This is what
    selectMinCloudWithTimePref does; selectOnDayExactOrNearest has no such
    substitution: with no candidate on the target day and none within the
    fallback days it takes [first] of an empty collection and returns no
    image at all. *)
Theorem C3_on_window_has_no_placeholder (joined : ImageCollection)
  (tDate nearestDays : Z) :
  scoredWindow joined tDate (advance 1 tDate) = [] ->
  nearestWindow joined tDate nearestDays = [] ->
  selectOnDayExactOrNearest joined tDate nearestDays = None /\
  selectOnDayExactOrNearest joined tDate nearestDays <> Some Image_empty /\
  selectMinCloudWithTimePref joined tDate (advance 1 tDate) true
    = Some Image_empty /\
  roiCloud Image_empty = None /\
  cloudFrac Image_empty = None /\
  validFrac Image_empty = None.
Proof.
  intros H1 H2.
  rewrite (selectOnDayExactOrNearest_empty _ _ _ H1 H2).
  rewrite (selectMinCloudWithTimePref_empty _ _ _ _ H1).
  repeat split; try reflexivity. discriminate.
Qed.

Lemma C3_ten_days_before :
  onImg tenDaysBefore = None /\
  onImg tenDaysBefore <> Some Image_empty /\
  selectMinCloudWithTimePref tenDaysBefore targetDate (advance 1 targetDate) true
    = Some Image_empty /\
  roiCloud Image_empty = None /\
  cloudFrac Image_empty = None /\
  validFrac Image_empty = None.
Proof.
  apply (C3_on_window_has_no_placeholder tenDaysBefore targetDate
           onFallbackNearestDays); reflexivity.
Defined.

(** ** The before-window *)

Lemma targetDate_format : format targetDate = (2025, 11, 30).
Proof. reflexivity. Qed.

Lemma preStart_format : format preStart = (2025, 10, 31).
Proof. reflexivity. Qed.

(** C7. The before-window is the half-open interval
    [targetDate - preLookbackDays, targetDate): with the target 2025-11-30
    and 30 days of lookback it starts on 2025-10-31 (inclusive) and ends on
    2025-11-30 (exclusive).  Every candidate of the before selection is
    acquired inside it, so none is acquired on the target day, and an image
    returned by the before selection is either the placeholder or acquired
    before the target date. *)
Theorem C7_before_window (joined : ImageCollection) (c chosen : Image) :
  In c (scoredWindow joined preStart preEnd) ->
  beforeImg joined = Some chosen ->
  preStart = targetDate - preLookbackDays * msPerDay /\
  preEnd = targetDate /\
  preStart = Date 2025 10 31 /\
  preEnd = Date 2025 11 30 /\
  format preStart = (2025, 10, 31) /\
  (forall img, In img (filterDate preStart preEnd joined) <->
     In img joined /\
     exists t, time_start img = Some t /\ Date 2025 10 31 <= t < Date 2025 11 30) /\
  (exists t, time_start c = Some t /\ preStart <= t < targetDate) /\
  inDateRange targetDate (advance 1 targetDate) c = false /\
  (exists t, time_start chosen = Some t /\ preStart <= t < targetDate).
Proof.
  intros Hc Hsel.
  assert (Hin : forall x, In x (scoredWindow joined preStart preEnd) ->
                inDateRange targetDate (advance 1 targetDate) x = false).
  { intros x Hx. destruct (scoredWindow_time _ _ _ _ Hx) as (t & Ht & Hr).
    unfold inDateRange. rewrite Ht. unfold preEnd in Hr.
    apply andb_false_iff. left. apply Z.leb_gt. lia. }
  assert (Hw : forall img, In img (filterDate preStart preEnd joined) <->
     In img joined /\
     exists t, time_start img = Some t /\ Date 2025 10 31 <= t < Date 2025 11 30).
  { intros img. unfold filterDate. rewrite filter_In, inDateRange_iff. tauto. }
  split; [reflexivity|]. split; [reflexivity|]. split; [reflexivity|].
  split; [reflexivity|]. split; [reflexivity|]. split; [exact Hw|].
  split; [|split].
  - exact (scoredWindow_time _ _ _ _ Hc).
  - now apply Hin.
  - assert (Hne : scoredWindow joined preStart preEnd <> [])
      by (intros E; rewrite E in Hc; destruct Hc).
    destruct (select_nonempty joined preStart preEnd true Hne)
      as (ch & m & Hsel' & Hm & _ & _ & Hbest & _).
    unfold beforeImg in Hsel. rewrite Hsel' in Hsel. injection Hsel as <-.
    apply (nearTie_In _ m ch Hm) in Hbest. destruct Hbest as [Hbest _].
    apply qualityTier_incl in Hbest.
    exact (scoredWindow_time _ _ _ _ Hbest).
Qed.

Lemma C7_hazy_then_unscored :
  preStart = targetDate - preLookbackDays * msPerDay /\
  preEnd = targetDate /\
  preStart = Date 2025 10 31 /\
  preEnd = Date 2025 11 30 /\
  format preStart = (2025, 10, 31) /\
  (forall img, In img (filterDate preStart preEnd hazyThenUnscored) <->
     In img hazyThenUnscored /\
     exists t, time_start img = Some t /\ Date 2025 10 31 <= t < Date 2025 11 30) /\
  (exists t, time_start hazyCandidate = Some t /\ preStart <= t < targetDate) /\
  inDateRange targetDate (advance 1 targetDate) hazyCandidate = false /\
  (exists t, time_start unscoredCandidate = Some t /\ preStart <= t < targetDate).
Proof.
  apply (C7_before_window hazyThenUnscored hazyCandidate unscoredCandidate).
  - left. reflexivity.
  - reflexivity.
Defined.

(** ** The on-day policy *)

Lemma before_roiCloud_le (a b : Image) (ra rb : Q) :
  before roiCloud true a b = true ->
  roiCloud a = Some ra -> roiCloud b = Some rb -> (ra <= rb)%Q.
Proof.
  unfold before. intros H Ha Hb. rewrite Ha, Hb in H. now apply Qle_bool_iff.
Qed.

Lemma exact_pool_nonempty_iff (joined : ImageCollection) (tDate : Z) :
  scoredWindow joined tDate (advance 1 tDate) <> [] <->
  exists img, In img joined /\ inDateRange tDate (advance 1 tDate) img = true.
Proof.
  split.
  - intros H. destruct (scoredWindow joined tDate (advance 1 tDate)) as [|c l] eqn:E;
      [now contradiction H|].
    assert (Hc : In c (scoredWindow joined tDate (advance 1 tDate)))
      by (rewrite E; now left).
    apply scoredWindow_In in Hc. destruct Hc as (img & H1 & H2 & _).
    now exists img.
  - intros (img & H1 & H2) E.
    assert (Hc : In (addMetrics (addCloudProb img))
                    (scoredWindow joined tDate (advance 1 tDate))).
    { apply scoredWindow_In. now exists img. }
    rewrite E in Hc. destruct Hc.
Qed.

(** The value of [selectOnDayExactOrNearest] when the exact-day pool has a
    candidate: it is a function of that pool alone. *)
Lemma selectOnDay_exact (joined : ImageCollection) (tDate nearestDays : Z) :
  scoredWindow joined tDate (advance 1 tDate) <> [] ->
  selectOnDayExactOrNearest joined tDate nearestDays =
  option_map (set_usedExactOnDay true)
    (first (sort roiCloud true
              (qualityTier (scoredWindow joined tDate (advance 1 tDate))))).
Proof.
  intros H. unfold selectOnDayExactOrNearest.
  apply size_pos_iff in H. rewrite H. reflexivity.
Qed.

Lemma selectOnDay_nearest (joined : ImageCollection) (tDate nearestDays : Z) :
  scoredWindow joined tDate (advance 1 tDate) = [] ->
  selectOnDayExactOrNearest joined tDate nearestDays =
  option_map (set_usedExactOnDay false)
    (first (sort sortKey true
              (qualityTier (nearestWindow joined tDate nearestDays)))).
Proof.
  intros H. unfold selectOnDayExactOrNearest. rewrite H. reflexivity.
Qed.

(** C1. If some image of [joined] is acquired on the target day, the "on"
    selection is the candidate of lowest roiCloud in the winning tier of the
    exact-day pool, tagged usedExactOnDay = true, whatever the nearest pool
    holds: any other collection and fallback distance with the same
    exact-day pool give the same image.  The nearest pool decides only when
    the exact-day pool is empty. *)
Theorem C1_exact_day_precedence (joined : ImageCollection)
  (tDate nearestDays : Z) :
  ((exists img, In img joined /\ inDateRange tDate (advance 1 tDate) img = true) ->
   exists c r,
     In c (qualityTier (scoredWindow joined tDate (advance 1 tDate))) /\
     roiCloud c = Some r /\
     (forall c' r',
         In c' (qualityTier (scoredWindow joined tDate (advance 1 tDate))) ->
         roiCloud c' = Some r' -> (r <= r')%Q) /\
     selectOnDayExactOrNearest joined tDate nearestDays
       = Some (set_usedExactOnDay true c) /\
     (forall joined' nearestDays',
         scoredWindow joined' tDate (advance 1 tDate)
           = scoredWindow joined tDate (advance 1 tDate) ->
         selectOnDayExactOrNearest joined' tDate nearestDays'
           = Some (set_usedExactOnDay true c))) /\
  ((forall img, In img joined -> inDateRange tDate (advance 1 tDate) img = false) ->
   selectOnDayExactOrNearest joined tDate nearestDays
     = option_map (set_usedExactOnDay false)
         (first (sort sortKey true
                   (qualityTier (nearestWindow joined tDate nearestDays))))).
Proof.
  split.
  - intros Hex. apply exact_pool_nonempty_iff in Hex.
    pose proof (qualityTier_nonempty _ Hex) as Hne.
    destruct (sort_first_some roiCloud true _ Hne) as (c & Hc).
    destruct (sort_first_least _ _ _ _ Hc) as [Hin Hord].
    destruct (scoredWindow_roiCloud _ _ _ _ (qualityTier_incl _ _ Hin)) as (r & Hr).
    exists c, r. split; [assumption|]. split; [assumption|]. split; [|split].
    + intros c' r' Hc' Hr'. exact (before_roiCloud_le c c' r r' (Hord c' Hc') Hr Hr').
    + rewrite (selectOnDay_exact _ _ _ Hex), Hc. reflexivity.
    + intros joined' nearestDays' E.
      assert (Hex' : scoredWindow joined' tDate (advance 1 tDate) <> [])
        by now rewrite E.
      rewrite (selectOnDay_exact _ _ _ Hex'), E, Hc. reflexivity.
  - intros Hno. apply selectOnDay_nearest.
    destruct (scoredWindow joined tDate (advance 1 tDate)) as [|c l] eqn:E;
      [reflexivity|].
    exfalso.
    assert (Hne : scoredWindow joined tDate (advance 1 tDate) <> [])
      by (rewrite E; discriminate).
    apply exact_pool_nonempty_iff in Hne. destruct Hne as (img & H1 & H2).
    rewrite (Hno img H1) in H2. discriminate.
Qed.

Lemma C1_exact_and_nearer :
  exists c r,
    In c (qualityTier (scoredWindow exactAndNearer targetDate (advance 1 targetDate))) /\
    roiCloud c = Some r /\
    (forall c' r',
        In c' (qualityTier (scoredWindow exactAndNearer targetDate (advance 1 targetDate))) ->
        roiCloud c' = Some r' -> (r <= r')%Q) /\
    onImg exactAndNearer = Some (set_usedExactOnDay true c) /\
    (forall joined' nearestDays',
        scoredWindow joined' targetDate (advance 1 targetDate)
          = scoredWindow exactAndNearer targetDate (advance 1 targetDate) ->
        selectOnDayExactOrNearest joined' targetDate nearestDays'
          = Some (set_usedExactOnDay true c)).
Proof.
  apply (proj1 (C1_exact_day_precedence exactAndNearer targetDate
                  onFallbackNearestDays)).
  exists (scene (targetDate + 5 * msPerHour) (Some [Some 30; Some 30])
            [Some 710; Some 655]).
  split; [right; left; reflexivity | reflexivity].
Defined.

(** ** The nearest pool and its sort key *)

Lemma sumZ_bounds (l : list Z) :
  Forall (fun v => 0 <= v <= 100) l ->
  0 <= sumZ l <= 100 * Z.of_nat (List.length l).
Proof.
  induction 1 as [|v l Hv _ IH].
  - simpl. lia.
  - change (sumZ (v :: l)) with (v + sumZ l).
    change (List.length (v :: l)) with (S (List.length l)).
    rewrite Nat2Z.inj_succ. lia.
Qed.

Lemma mean_in_range (l : list Z) :
  l <> [] -> Forall (fun v => 0 <= v <= 100) l ->
  (0 <= Qmake (sumZ l) (Pos.of_nat (List.length l)) <= 100)%Q.
Proof.
  intros Hne Hl. pose proof (sumZ_bounds l Hl) as Hs.
  destruct l as [|v l']; [now contradiction Hne|].
  set (s := sumZ (v :: l')) in *. simpl List.length in *.
  assert (Hp : Z.pos (Pos.of_nat (S (List.length l'))) = Z.of_nat (S (List.length l'))).
  { rewrite <- Pos.of_nat_succ, Zpos_P_of_succ_nat, Nat2Z.inj_succ. reflexivity. }
  unfold Qle. cbn [Qnum Qden]. rewrite Hp. lia.
Qed.

Lemma Number_If_range (v : option Q) :
  (forall q, v = Some q -> (0 <= q <= 100)%Q) ->
  (0 <= Number_If v 100 <= 100)%Q.
Proof.
  intros H. unfold Number_If. destruct v as [q|].
  - destruct (Qeq_bool q 0); [split; discriminate | now apply H].
  - split; discriminate.
Qed.

(** With probabilities between 0 and 100, roiCloud lies between 0 and 100. *)
Lemma roiCloud_range (img : Image) :
  probabilityInRange img ->
  exists r, roiCloud (addMetrics (addCloudProb img)) = Some r /\
            (0 <= r <= 100)%Q.
Proof.
  intros H. eexists. split; [apply addMetrics_roiCloud|].
  apply Number_If_range. intros q.
  unfold probabilityInRange in H. unfold addCloudProb.
  destruct (cloudprob img) as [[v|px]|];
    cbn [addBands_probability probability reduceRegion_mean].
  - intros [= <-]. unfold Qle, inject_Z. cbn [Qnum Qden]. lia.
  - destruct (unmasked px) as [|v vs] eqn:E; [discriminate|].
    intros [= <-]. refine (mean_in_range (v :: vs) _ H). discriminate.
  - intros [= <-]. split; discriminate.
Qed.

(** What the nearest pool holds: every candidate carries its time, its
    roiCloud, its distance to the target in days and the key built from
    them. *)
Lemma nearestWindow_In (joined : ImageCollection) (tDate nearestDays : Z)
  (a : Image) :
  In a (nearestWindow joined tDate nearestDays) ->
  exists img t c,
    In img joined /\
    time_start img = Some t /\
    advance (- nearestDays) tDate <= t < advance (nearestDays + 1) tDate /\
    roiCloud (addMetrics (addCloudProb img)) = Some c /\
    time_start a = Some t /\
    roiCloud a = Some c /\
    absDiffDays a = Some (Qabs (difference t tDate)) /\
    sortKey a = Some (Qabs (difference t tDate) * 1000 + c)%Q.
Proof.
  unfold nearestWindow. rewrite in_map_iff. intros (s & <- & Hs).
  apply scoredWindow_In in Hs. destruct Hs as (img & Hin & Hr & ->).
  apply inDateRange_iff in Hr. destruct Hr as (t & Ht & Hr).
  exists img, t. eexists. split; [assumption|]. split; [assumption|].
  split; [assumption|]. split; [apply addMetrics_roiCloud|].
  unfold addSortKey. rewrite scored_time_start, Ht, addMetrics_roiCloud.
  split; [exact Ht|]. repeat split; reflexivity.
Qed.

Lemma before_sortKey_le (a b : Image) (ka kb : Q) :
  before sortKey true a b = true ->
  sortKey a = Some ka -> sortKey b = Some kb -> (ka <= kb)%Q.
Proof.
  unfold before. intros H Ha Hb. rewrite Ha, Hb in H. now apply Qle_bool_iff.
Qed.

(** The claim C2 as worded does not hold.  One candidate is exactly one day
    from the target with roiCloud 90, the other one day and one hour from it
    with roiCloud 12; both are valid and both exceed maxCloudFrac, so both
    are in the winning (valid-only) tier.  The first is nearer, yet the
    second has the smaller sort key (1054 against 1090, rounded) and is the
    one selected. *)
Lemma C2_hour_apart_cloud_beats_distance :
  exists d1 d2 k1 k2,
    In dayAfterCandidate
       (qualityTier (nearestWindow hourApart targetDate onFallbackNearestDays)) /\
    In hourLaterCandidate
       (qualityTier (nearestWindow hourApart targetDate onFallbackNearestDays)) /\
    absDiffDays dayAfterCandidate = Some d1 /\
    absDiffDays hourLaterCandidate = Some d2 /\
    (d1 < d2)%Q /\
    sortKey dayAfterCandidate = Some k1 /\
    sortKey hourLaterCandidate = Some k2 /\
    (k2 < k1)%Q /\
    onImg hourApart = Some (set_usedExactOnDay false hourLaterCandidate).
Proof.
  do 4 eexists.
  split; [left; reflexivity|]. split; [right; left; reflexivity|].
  split; [reflexivity|]. split; [reflexivity|]. split; [reflexivity|].
  split; [reflexivity|]. split; [reflexivity|]. split; reflexivity.
Qed.

Lemma sortKey_set_usedExactOnDay (f : bool) (c : Image) :
  sortKey (set_usedExactOnDay f c) = sortKey c.
Proof. reflexivity. Qed.

(** C2, amended.  In the winning tier of the nearest pool, with cloud
    probabilities between 0 and 100, every candidate carries
    absDiffDays = |time_start - tDate| / 86400000, the fractional number of
    days between its acquisition and the target, and the sort key
    absDiffDays * 1000 + roiCloud.  A candidate more than a tenth of a day
    nearer than another has the smaller key whatever the two roiCloud are;
    at equal distance the lower roiCloud has the smaller key; and a
    candidate with a larger key than another of the tier is never the one
    selected. *)
Theorem C2_distance_dominates_beyond_tenth_of_day
  (joined : ImageCollection) (tDate nearestDays : Z) (a b : Image) :
  (forall img, In img joined -> probabilityInRange img) ->
  In a (qualityTier (nearestWindow joined tDate nearestDays)) ->
  In b (qualityTier (nearestWindow joined tDate nearestDays)) ->
  exists ta tb d1 d2 c1 c2,
    time_start a = Some ta /\ time_start b = Some tb /\
    d1 = Qmake (Z.abs (ta - tDate)) 86400000 /\
    d2 = Qmake (Z.abs (tb - tDate)) 86400000 /\
    absDiffDays a = Some d1 /\ absDiffDays b = Some d2 /\
    roiCloud a = Some c1 /\ roiCloud b = Some c2 /\
    (0 <= c1 <= 100)%Q /\ (0 <= c2 <= 100)%Q /\
    sortKey a = Some (d1 * 1000 + c1)%Q /\
    sortKey b = Some (d2 * 1000 + c2)%Q /\
    ((d1 + (1 # 10) < d2)%Q -> (d1 * 1000 + c1 < d2 * 1000 + c2)%Q) /\
    (Z.abs (ta - tDate) + 8640000 < Z.abs (tb - tDate) ->
       (d1 * 1000 + c1 < d2 * 1000 + c2)%Q) /\
    ((d1 == d2)%Q ->
       ((d1 * 1000 + c1 <= d2 * 1000 + c2)%Q <-> (c1 <= c2)%Q) /\
       ((d1 * 1000 + c1 < d2 * 1000 + c2)%Q <-> (c1 < c2)%Q)) /\
    ((d1 * 1000 + c1 < d2 * 1000 + c2)%Q ->
       first (sort sortKey true
                (qualityTier (nearestWindow joined tDate nearestDays)))
         <> Some b /\
       selectOnDayExactOrNearest joined tDate nearestDays
         <> Some (set_usedExactOnDay false b)).
Proof.
  intros Hwf Ha Hb.
  destruct (nearestWindow_In _ _ _ _ (qualityTier_incl _ _ Ha))
    as (ia & ta & c1 & Hia & _ & _ & Hsa & Hta & Hca & Hda & Hka).
  destruct (nearestWindow_In _ _ _ _ (qualityTier_incl _ _ Hb))
    as (ib & tb & c2 & Hib & _ & _ & Hsb & Htb & Hcb & Hdb & Hkb).
  destruct (roiCloud_range ia (Hwf ia Hia)) as (r1 & Hr1 & Hr1').
  destruct (roiCloud_range ib (Hwf ib Hib)) as (r2 & Hr2 & Hr2').
  rewrite Hsa in Hr1. injection Hr1 as <-.
  rewrite Hsb in Hr2. injection Hr2 as <-.
  change (Qabs (difference ta tDate))
    with (Qmake (Z.abs (ta - tDate)) 86400000) in *.
  change (Qabs (difference tb tDate))
    with (Qmake (Z.abs (tb - tDate)) 86400000) in *.
  remember (Qmake (Z.abs (ta - tDate)) 86400000) as d1 eqn:Ed1.
  remember (Qmake (Z.abs (tb - tDate)) 86400000) as d2 eqn:Ed2.
  assert (Hkey : (d1 + (1 # 10) < d2)%Q ->
                 (d1 * 1000 + c1 < d2 * 1000 + c2)%Q) by (intros H; Lqa.lra).
  assert (Hfirst : (d1 * 1000 + c1 < d2 * 1000 + c2)%Q ->
                   forall c0 k0,
                     first (sort sortKey true
                              (qualityTier (nearestWindow joined tDate nearestDays)))
                       = Some c0 ->
                     sortKey c0 = Some k0 -> (k0 < d2 * 1000 + c2)%Q).
  { intros Hlt c0 k0 Hc0 Hk0.
    destruct (sort_first_least _ _ _ _ Hc0) as [_ Hord].
    pose proof (before_sortKey_le c0 a _ _ (Hord a Ha) Hk0 Hka). Lqa.lra. }
  exists ta, tb, d1, d2, c1, c2.
  do 12 (split; [assumption|]).
  split; [exact Hkey|]. split; [|split].
  - intros Hms. apply Hkey. subst d1 d2.
    unfold Qlt, Qplus. cbn [Qnum Qden]. lia.
  - intros E. split; split; intros H; Lqa.lra.
  - intros Hlt. split.
    + intros Hc0. pose proof (Hfirst Hlt b _ Hc0 Hkb) as H. Lqa.lra.
    + intros Hsel.
      destruct (scoredWindow joined tDate (advance 1 tDate)) as [|x l] eqn:E.
      * rewrite (selectOnDay_nearest _ _ _ E) in Hsel.
        destruct (first (sort sortKey true
                    (qualityTier (nearestWindow joined tDate nearestDays))))
          as [c0|] eqn:Hc0; [|discriminate].
        change (Some (set_usedExactOnDay false c0)
                = Some (set_usedExactOnDay false b)) in Hsel.
        assert (Hk0 : sortKey c0 = Some (d2 * 1000 + c2)%Q).
        { rewrite <- (sortKey_set_usedExactOnDay false c0).
          replace (set_usedExactOnDay false c0) with (set_usedExactOnDay false b)
            by congruence.
          exact Hkb. }
        pose proof (Hfirst Hlt c0 _ eq_refl Hk0) as H. Lqa.lra.
      * assert (Hne : scoredWindow joined tDate (advance 1 tDate) <> [])
          by (rewrite E; discriminate).
        rewrite (selectOnDay_exact _ _ _ Hne) in Hsel.
        destruct (first (sort roiCloud true
                    (qualityTier (scoredWindow joined tDate (advance 1 tDate)))))
          as [c0|]; [|discriminate].
        change (Some (set_usedExactOnDay true c0)
                = Some (set_usedExactOnDay false b)) in Hsel.
        assert (Hflag : usedExactOnDay (set_usedExactOnDay true c0)
                        = usedExactOnDay (set_usedExactOnDay false b))
          by congruence.
        discriminate.
Qed.

(** At the scenes two and three days after the target (roiCloud 10 and 1):
    the distances are 2 and 3 days, the keys 2010 and 3001, and the scene at
    two days is the one selected. *)
Lemma C2_two_days_beats_three_days :
  (exists ta tb d1 d2 c1 c2,
    time_start twoDaysCandidate = Some ta /\
    time_start threeDaysCandidate = Some tb /\
    d1 = Qmake (Z.abs (ta - targetDate)) 86400000 /\
    d2 = Qmake (Z.abs (tb - targetDate)) 86400000 /\
    absDiffDays twoDaysCandidate = Some d1 /\
    absDiffDays threeDaysCandidate = Some d2 /\
    roiCloud twoDaysCandidate = Some c1 /\
    roiCloud threeDaysCandidate = Some c2 /\
    (0 <= c1 <= 100)%Q /\ (0 <= c2 <= 100)%Q /\
    sortKey twoDaysCandidate = Some (d1 * 1000 + c1)%Q /\
    sortKey threeDaysCandidate = Some (d2 * 1000 + c2)%Q /\
    ((d1 + (1 # 10) < d2)%Q -> (d1 * 1000 + c1 < d2 * 1000 + c2)%Q) /\
    (Z.abs (ta - targetDate) + 8640000 < Z.abs (tb - targetDate) ->
       (d1 * 1000 + c1 < d2 * 1000 + c2)%Q) /\
    ((d1 == d2)%Q ->
       ((d1 * 1000 + c1 <= d2 * 1000 + c2)%Q <-> (c1 <= c2)%Q) /\
       ((d1 * 1000 + c1 < d2 * 1000 + c2)%Q <-> (c1 < c2)%Q)) /\
    ((d1 * 1000 + c1 < d2 * 1000 + c2)%Q ->
       first (sort sortKey true
                (qualityTier (nearestWindow twoAndThreeDays targetDate
                                onFallbackNearestDays)))
         <> Some threeDaysCandidate /\
       onImg twoAndThreeDays
         <> Some (set_usedExactOnDay false threeDaysCandidate))) /\
  (exists d1 d2 k1 k2,
    absDiffDays twoDaysCandidate = Some d1 /\ (d1 == 2)%Q /\
    absDiffDays threeDaysCandidate = Some d2 /\ (d2 == 3)%Q /\
    sortKey twoDaysCandidate = Some k1 /\ (k1 == 2010)%Q /\
    sortKey threeDaysCandidate = Some k2 /\ (k2 == 3001)%Q) /\
  onImg twoAndThreeDays = Some (set_usedExactOnDay false twoDaysCandidate).
Proof.
  split; [|split].
  - apply (C2_distance_dominates_beyond_tenth_of_day twoAndThreeDays targetDate
             onFallbackNearestDays twoDaysCandidate threeDaysCandidate).
    + intros img [<-|[<-|[]]]; unfold probabilityInRange; simpl;
        repeat constructor; lia.
    + right. left. reflexivity.
    + left. reflexivity.
  - do 4 eexists. repeat split; reflexivity.
  - reflexivity.
Defined.

(** ** Unscored candidates *)

(** The claim C8 as worded does not hold.  Both scenes before the target are
    valid and too cloudy for the strict tier; the older one is scored
    (roiCloud 98), the newer one has no cloud probabilities (roiCloud 100 by
    default).  Both fall in the near-tie band and the before selection takes
    the newer, unscored one. *)
Lemma C8_unscored_chosen_over_scored :
  exists r,
    In hazyCandidate (qualityTier (scoredWindow hazyThenUnscored preStart preEnd)) /\
    In unscoredCandidate (qualityTier (scoredWindow hazyThenUnscored preStart preEnd)) /\
    reduceRegion_mean (cloudprob hazyCandidate) = Some r /\ (r == 98)%Q /\
    roiCloud hazyCandidate = Some r /\
    cloudprob unscoredCandidate = None /\
    roiCloud unscoredCandidate = Some 100%Q /\
    beforeImg hazyThenUnscored = Some unscoredCandidate.
Proof.
  eexists. split; [left; reflexivity|]. split; [right; left; reflexivity|].
  split; [reflexivity|]. repeat split; reflexivity.
Qed.

Lemma roiCloud_set_usedExactOnDay (b : bool) (c : Image) :
  roiCloud (set_usedExactOnDay b c) = roiCloud c.
Proof. reflexivity. Qed.

(** C8, amended.  A metric whose reduction yields no value takes its
    worst-case default (roiCloud 100, cloudFrac 1, validFrac 0), and an image
    without a cloud-probability raster gets probability 100 everywhere,
    hence roiCloud 100 and cloudFrac 1.  Such a candidate can still be
    selected: selectMinCloudWithTimePref returns a candidate of roiCloud 100
    only when every candidate of the winning tier has roiCloud >= 100 -
    cloudTieTolerance, and the exact-day policy returns one only when every
    candidate of the winning exact-day tier has roiCloud >= 100. *)
Theorem C8_defaults_bias_selection :
  (forall img, reduceRegion_mean (probability img) = None ->
               roiCloud (addMetrics img) = Some 100%Q) /\
  (forall img, reduceRegion_mean (gt cloudProbThresh (probability img)) = None ->
               cloudFrac (addMetrics img) = Some 1%Q) /\
  (forall img, reduceRegion_mean (mask (B2 img)) = None ->
               validFrac (addMetrics img) = Some 0%Q) /\
  (forall img, cloudprob img = None ->
               probability (addCloudProb img) = Some (Constant 100) /\
               roiCloud (addMetrics (addCloudProb img)) = Some 100%Q /\
               cloudFrac (addMetrics (addCloudProb img)) = Some 1%Q) /\
  (forall joined dateStart dateEnd preferLatest chosen r,
      selectMinCloudWithTimePref joined dateStart dateEnd preferLatest
        = Some chosen ->
      roiCloud chosen = Some r -> (r == 100)%Q ->
      forall c v, In c (qualityTier (scoredWindow joined dateStart dateEnd)) ->
                  roiCloud c = Some v -> (100 - cloudTieTolerance <= v)%Q) /\
  (forall joined tDate nearestDays chosen r,
      scoredWindow joined tDate (advance 1 tDate) <> [] ->
      selectOnDayExactOrNearest joined tDate nearestDays = Some chosen ->
      roiCloud chosen = Some r -> (r == 100)%Q ->
      forall c v, In c (qualityTier (scoredWindow joined tDate (advance 1 tDate))) ->
                  roiCloud c = Some v -> (100 <= v)%Q).
Proof.
  split; [|split; [|split; [|split; [|split]]]].
  - intros img H. rewrite addMetrics_roiCloud, H. reflexivity.
  - intros img H. rewrite addMetrics_cloudFrac, H. reflexivity.
  - intros img H. rewrite addMetrics_validFrac, H. reflexivity.
  - intros img H. unfold addCloudProb.
    rewrite addMetrics_roiCloud, addMetrics_cloudFrac, H.
    repeat split; reflexivity.
  - intros joined dateStart dateEnd preferLatest chosen r Hsel Hr Hr100 c v Hc Hv.
    assert (Hne : scoredWindow joined dateStart dateEnd <> []).
    { intros E. rewrite E in Hc. destruct Hc. }
    destruct (select_nonempty joined dateStart dateEnd preferLatest Hne)
      as (ch & m & Hsel' & Hm & _ & _ & Hbest & _).
    rewrite Hsel' in Hsel. injection Hsel as ->.
    apply (nearTie_In _ m chosen Hm) in Hbest.
    destruct Hbest as (_ & r' & Hr' & Hle).
    rewrite Hr in Hr'. injection Hr' as <-.
    pose proof (aggregate_min_le roiCloud _ m Hm c v Hc Hv). Lqa.lra.
  - intros joined tDate nearestDays chosen r Hne Hsel Hr Hr100 c v Hc Hv.
    rewrite (selectOnDay_exact _ _ _ Hne) in Hsel.
    destruct (first (sort roiCloud true
                (qualityTier (scoredWindow joined tDate (advance 1 tDate)))))
      as [ch|] eqn:Hch; [|discriminate].
    simpl in Hsel. injection Hsel as <-.
    rewrite roiCloud_set_usedExactOnDay in Hr.
    destruct (sort_first_least _ _ _ _ Hch) as [_ Hord].
    pose proof (before_roiCloud_le ch c r v (Hord c Hc) Hr Hv). Lqa.lra.
Qed.

Lemma C8_hazy_then_unscored :
  roiCloud hazyCandidate = Some (196 # 2) /\
  (100 - cloudTieTolerance <= 196 # 2)%Q.
Proof.
  split; [reflexivity|].
  apply (proj1 (proj2 (proj2 (proj2 (proj2 C8_defaults_bias_selection))))
           hazyThenUnscored preStart preEnd true unscoredCandidate 100%Q
           eq_refl eq_refl (Qeq_refl 100) hazyCandidate (196 # 2)).
  - left. reflexivity.
  - reflexivity.
Defined.

(** ** The region *)

Module RegionProps.
Import Reals Lra Region.
Local Open Scope R_scope.

Lemma sqrt_million : sqrt 1000000 = 1000.
Proof.
  replace 1000000 with (1000 * 1000) by lra. apply sqrt_square. lra.
Qed.

Lemma halfSideOf_nonneg (A : R) : 0 <= halfSideOf A.
Proof.
  unfold halfSideOf. pose proof (sqrt_pos (A * 1000000)). lra.
Qed.

(** In kilometres the half side is sqrt(A) / 2. *)
Lemma halfSideOf_km (A : R) : 0 <= A -> halfSideOf A = 1000 * (sqrt A / 2).
Proof.
  intros HA. unfold halfSideOf.
  rewrite sqrt_mult; [rewrite sqrt_million; lra | assumption | lra].
Qed.

Lemma halfSideMeters_approx : 1581 < halfSideMeters < 1582.
Proof.
  unfold halfSideMeters, halfSideOf, squareAreaKm2.
  assert (H1 : 3162 < sqrt (10 * 1000000)).
  { rewrite <- (sqrt_square 3162) at 1 by lra. apply sqrt_lt_1_alt. lra. }
  assert (H2 : sqrt (10 * 1000000) < 3164).
  { rewrite <- (sqrt_square 3164) at 1 by lra. apply sqrt_lt_1_alt. lra. }
  lra.
Qed.

(** X15. The comment of the script is right about the numbers: for an
    area A in km^2 (not negative) the half side is sqrt(A)/2 km, and a
    square of twice that side has area A; for the configured 10 km^2 the
    side lies between 3162 m and 3164 m, the half side between 1581 m and
    1582 m, and the export buffer is smaller than the half side. *)
Theorem X15_half_side_of_area (A : R) :
  0 <= A ->
  halfSideOf A = 1000 * (sqrt A / 2) /\
  (2 * halfSideOf A) * (2 * halfSideOf A) = A * 1000000 /\
  3162 < 2 * halfSideMeters < 3164 /\
  1581 < halfSideMeters < 1582 /\
  0 < exportBufferMeters < halfSideMeters.
Proof.
  intros HA. pose proof (halfSideOf_km A HA) as Hh.
  pose proof (sqrt_pos A) as Hs.
  assert (Hsq : sqrt A * sqrt A = A) by now apply sqrt_sqrt.
  pose proof halfSideMeters_approx as Hm.
  split; [exact Hh|]. split; [rewrite Hh; nra|].
  unfold exportBufferMeters. repeat split; lra.
Qed.

Lemma X15_ten_square_kilometres :
  halfSideMeters = 1000 * (sqrt 10 / 2) /\
  (2 * halfSideMeters) * (2 * halfSideMeters) = 10 * 1000000 /\
  3162 < 2 * halfSideMeters < 3164 /\
  1581 < halfSideMeters < 1582 /\
  0 < exportBufferMeters < halfSideMeters.
Proof.
  apply (X15_half_side_of_area 10). lra.
Defined.

End RegionProps.

(** * Further properties of the script *)

(** ** Ranges of the metrics *)

Lemma unmasked_map (f : Z -> Z) (px : list (option Z)) :
  unmasked (map (option_map f) px) = map f (unmasked px).
Proof.
  unfold unmasked. induction px as [|[v|] px IH]; simpl; [reflexivity| |assumption].
  now rewrite IH.
Qed.

Lemma sumZ_between (lo hi : Z) (l : list Z) :
  Forall (fun v => lo <= v <= hi) l ->
  lo * Z.of_nat (List.length l) <= sumZ l <= hi * Z.of_nat (List.length l).
Proof.
  induction 1 as [|v l Hv _ IH].
  - simpl. lia.
  - change (sumZ (v :: l)) with (v + sumZ l).
    change (List.length (v :: l)) with (S (List.length l)).
    rewrite Nat2Z.inj_succ. lia.
Qed.

Lemma mean_between (lo hi : Z) (l : list Z) :
  l <> [] -> Forall (fun v => lo <= v <= hi) l ->
  (inject_Z lo <= Qmake (sumZ l) (Pos.of_nat (List.length l)) <= inject_Z hi)%Q.
Proof.
  intros Hne Hl. pose proof (sumZ_between lo hi l Hl) as Hs.
  destruct l as [|v l']; [now contradiction Hne|].
  set (s := sumZ (v :: l')) in *.
  change (List.length (v :: l')) with (S (List.length l')) in *.
  assert (Hp : Z.pos (Pos.of_nat (S (List.length l'))) = Z.of_nat (S (List.length l'))).
  { rewrite <- Pos.of_nat_succ, Zpos_P_of_succ_nat, Nat2Z.inj_succ. reflexivity. }
  unfold Qle, inject_Z. cbn [Qnum Qden]. rewrite Hp. lia.
Qed.

(** The mean reducer stays between the bounds of the raster. *)
Lemma reduceRegion_mean_between (lo hi : Z) (r : Raster) (q : Q) :
  rasterWithin lo hi r -> reduceRegion_mean (Some r) = Some q ->
  (inject_Z lo <= q <= inject_Z hi)%Q.
Proof.
  destruct r as [v|px]; cbn [rasterWithin reduceRegion_mean]; intros H.
  - intros [= <-]. rewrite <- !Zle_Qle. exact H.
  - destruct (unmasked px) as [|v vs] eqn:E; [discriminate|].
    intros [= <-]. refine (mean_between lo hi (v :: vs) _ H). discriminate.
Qed.

Lemma gt_within (t : Z) (r : Raster) :
  exists r', gt t (Some r) = Some r' /\ rasterWithin 0 1 r'.
Proof.
  destruct r as [v|px]; cbn [gt]; eexists; (split; [reflexivity|]);
    cbn [rasterWithin].
  - destruct (t <? v); lia.
  - rewrite unmasked_map. apply Forall_forall. intros x Hx.
    apply in_map_iff in Hx. destruct Hx as (v & <- & _). destruct (t <? v); lia.
Qed.

Lemma mask_within (r : Raster) :
  exists r', mask (Some r) = Some r' /\ rasterWithin 0 1 r'.
Proof.
  destruct r as [v|px]; cbn [mask]; eexists; (split; [reflexivity|]);
    cbn [rasterWithin]; [lia|].
  induction px as [|[v|] px IH]; simpl; constructor; (lia || assumption).
Qed.

Lemma Number_If_positive (v : option Q) (dflt hi : Q) :
  (forall q, v = Some q -> (0 <= q <= hi)%Q) ->
  (0 < dflt <= hi)%Q ->
  (0 < Number_If v dflt <= hi)%Q.
Proof.
  intros H Hd. unfold Number_If. destruct v as [q|]; [|exact Hd].
  destruct (Qeq_bool q 0) eqn:E; [exact Hd|].
  apply Qeq_bool_neq in E. destruct (H q eq_refl) as [H0 H1].
  split; [|assumption]. apply Qle_lteq in H0. destruct H0 as [H0|H0]; [assumption|].
  exfalso. apply E. now symmetry.
Qed.

Lemma Number_If_zero_default (v : option Q) (hi : Q) :
  (forall q, v = Some q -> (0 <= q <= hi)%Q) -> (0 <= hi)%Q ->
  (0 <= Number_If v 0 <= hi)%Q.
Proof.
  intros H Hhi. unfold Number_If. destruct v as [q|].
  - destruct (Qeq_bool q 0); [split; [apply Qle_refl | assumption] | now apply H].
  - split; [apply Qle_refl | assumption].
Qed.

(** X1. Whatever the image, the three metrics are set.  With probabilities
    between 0 and 100, roiCloud lies in (0, 100], cloudFrac in (0, 1] and
    validFrac in [0, 1]: a reduction that yields 0 or nothing is replaced by
    the default, so roiCloud and cloudFrac are never 0. *)
Theorem X1_metric_ranges (img : Image) :
  probabilityInRange img ->
  exists r f v,
    roiCloud (addMetrics (addCloudProb img)) = Some r /\
    cloudFrac (addMetrics (addCloudProb img)) = Some f /\
    validFrac (addMetrics (addCloudProb img)) = Some v /\
    (0 < r <= 100)%Q /\ (0 < f <= 1)%Q /\ (0 <= v <= 1)%Q.
Proof.
  intros Hwf. do 3 eexists.
  split; [apply addMetrics_roiCloud|]. split; [apply addMetrics_cloudFrac|].
  split; [apply addMetrics_validFrac|].
  assert (Hp : exists r, probability (addCloudProb img) = Some r /\
                         rasterWithin 0 100 r).
  { unfold addCloudProb, probabilityInRange in *.
    destruct (cloudprob img) as [[v|px]|]; eexists; (split; [reflexivity|]);
      cbn [rasterWithin]; (assumption || lia). }
  destruct Hp as (r & Hr & Hin). rewrite Hr. split; [|split].
  - apply Number_If_positive; [|split; [reflexivity | discriminate]].
    intros q Hq. exact (reduceRegion_mean_between 0 100 r q Hin Hq).
  - destruct (gt_within cloudProbThresh r) as (r' & Hr' & Hin'). rewrite Hr'.
    apply Number_If_positive; [|split; [reflexivity | discriminate]].
    intros q Hq. exact (reduceRegion_mean_between 0 1 r' q Hin' Hq).
  - change (B2 (addCloudProb img)) with (B2 img).
    destruct (B2 img) as [b|].
    + destruct (mask_within b) as (r' & Hr' & Hin'). rewrite Hr'.
      apply Number_If_zero_default; [|discriminate].
      intros q Hq. exact (reduceRegion_mean_between 0 1 r' q Hin' Hq).
    + cbn. split; discriminate.
Qed.

Lemma X1_clear_scene :
  exists r f v,
    roiCloud (addMetrics (addCloudProb clearScene)) = Some r /\
    cloudFrac (addMetrics (addCloudProb clearScene)) = Some f /\
    validFrac (addMetrics (addCloudProb clearScene)) = Some v /\
    (0 < r <= 100)%Q /\ (0 < f <= 1)%Q /\ (0 <= v <= 1)%Q.
Proof.
  apply (X1_metric_ranges clearScene).
  unfold probabilityInRange. simpl. repeat constructor; lia.
Defined.

(** ** Scenes without a cloudy pixel *)

Lemma sumZ_map_zero (f : Z -> Z) (l : list Z) :
  Forall (fun v => f v = 0) l -> sumZ (map f l) = 0.
Proof.
  induction 1 as [|v l Hv _ IH]; [reflexivity|].
  change (sumZ (map f (v :: l))) with (f v + sumZ (map f l)). lia.
Qed.

Lemma cloudFrac_without_cloudy_pixel (img : Image) (r : Raster) :
  probability img = Some r -> noPixelAbove cloudProbThresh r ->
  cloudFrac (addMetrics img) = Some 1%Q.
Proof.
  intros Hr Hno. rewrite addMetrics_cloudFrac, Hr. f_equal.
  destruct r as [v|px]; cbn [gt reduceRegion_mean noPixelAbove] in *.
  - assert (E : (cloudProbThresh <? v) = false) by (apply Z.ltb_ge; exact Hno).
    rewrite E. reflexivity.
  - rewrite unmasked_map.
    destruct (unmasked px) as [|v vs] eqn:E; [reflexivity|].
    set (f := fun v0 : Z => if cloudProbThresh <? v0 then 1 else 0).
    assert (Hs : sumZ (map f (v :: vs)) = 0).
    { apply sumZ_map_zero. eapply Forall_impl; [|exact Hno].
      intros a Ha. unfold f.
      assert (E' : (cloudProbThresh <? a) = false) by (apply Z.ltb_ge; exact Ha).
      now rewrite E'. }
    change (map f (v :: vs)) with (f v :: map f vs) in *.
    cbn [reduceRegion_mean]. unfold Number_If. rewrite Hs. reflexivity.
Qed.

(** X2. An image whose probability raster has no pixel above
    cloudProbThresh gets cloudFrac 1, not 0: the mean of prob.gt(thresh) is
    0, which the conditional takes as false and replaces by the default.
    Such a candidate fails the strict filter in every collection. *)
Theorem X2_clear_scene_fails_strict_filter (img : Image) (r : Raster)
  (col : ImageCollection) :
  cloudprob img = Some r -> noPixelAbove cloudProbThresh r ->
  cloudFrac (addMetrics (addCloudProb img)) = Some 1%Q /\
  ~ In (addMetrics (addCloudProb img)) (qualityFilter col).
Proof.
  intros Hr Hno.
  assert (Hc : cloudFrac (addMetrics (addCloudProb img)) = Some 1%Q).
  { apply (cloudFrac_without_cloudy_pixel _ r); [|assumption].
    unfold addCloudProb. rewrite Hr. reflexivity. }
  split; [assumption|]. intros Hin. unfold qualityFilter in Hin.
  apply filter_lte_In in Hin. destruct Hin as (_ & f & Hf & Hle).
  rewrite Hc in Hf. injection Hf as <-. revert Hle. now vm_compute.
Qed.

Lemma X2_clear_scene :
  cloudFrac (addMetrics (addCloudProb clearScene)) = Some 1%Q /\
  ~ In (addMetrics (addCloudProb clearScene))
       (qualityFilter (scoredWindow [clearScene] preStart preEnd)).
Proof.
  apply (X2_clear_scene_fails_strict_filter clearScene (Sampled [Some 5; Some 7])).
  - reflexivity.
  - simpl. repeat constructor; unfold cloudProbThresh; lia.
Defined.

(** ** What the before/after selection returns *)

Lemma scoredWindow_nonempty_iff (joined : ImageCollection) (dateStart dateEnd : Z) :
  scoredWindow joined dateStart dateEnd <> [] <->
  exists img, In img joined /\ inDateRange dateStart dateEnd img = true.
Proof.
  split.
  - intros H. destruct (scoredWindow joined dateStart dateEnd) as [|c l] eqn:E;
      [now contradiction H|].
    assert (Hc : In c (scoredWindow joined dateStart dateEnd))
      by (rewrite E; now left).
    apply scoredWindow_In in Hc. destruct Hc as (img & H1 & H2 & _).
    now exists img.
  - intros (img & H1 & H2) E.
    assert (Hc : In (addMetrics (addCloudProb img))
                    (scoredWindow joined dateStart dateEnd)).
    { apply scoredWindow_In. now exists img. }
    rewrite E in Hc. destruct Hc.
Qed.

Lemma scoredWindow_empty_iff (joined : ImageCollection) (dateStart dateEnd : Z) :
  scoredWindow joined dateStart dateEnd = [] <->
  forall img, In img joined -> inDateRange dateStart dateEnd img = false.
Proof.
  split.
  - intros E img Hin.
    destruct (inDateRange dateStart dateEnd img) eqn:Hr; [|reflexivity].
    exfalso. apply (proj2 (scoredWindow_nonempty_iff joined dateStart dateEnd));
      [now exists img | exact E].
  - intros H.
    destruct (scoredWindow joined dateStart dateEnd) as [|c l] eqn:E; [reflexivity|].
    exfalso.
    assert (Hne : scoredWindow joined dateStart dateEnd <> [])
      by (rewrite E; discriminate).
    apply scoredWindow_nonempty_iff in Hne. destruct Hne as (img & H1 & H2).
    rewrite (H img H1) in H2. discriminate.
Qed.

(** X3. selectMinCloudWithTimePref always returns an image.  It is the
    placeholder exactly when no image of [joined] is acquired inside the
    window; otherwise it is the scored form of an image of [joined] acquired
    inside [dateStart, dateEnd). *)
Theorem X3_select_returns_placeholder_or_candidate (joined : ImageCollection)
  (dateStart dateEnd : Z) (preferLatest : bool) :
  exists chosen,
    selectMinCloudWithTimePref joined dateStart dateEnd preferLatest
      = Some chosen /\
    (((forall img, In img joined -> inDateRange dateStart dateEnd img = false) /\
      chosen = Image_empty) \/
     (exists img t,
         In img joined /\ time_start img = Some t /\
         dateStart <= t < dateEnd /\
         chosen = addMetrics (addCloudProb img))).
Proof.
  destruct (scoredWindow joined dateStart dateEnd) as [|c0 l] eqn:E.
  - exists Image_empty. split; [now apply selectMinCloudWithTimePref_empty|].
    left. split; [now apply scoredWindow_empty_iff | reflexivity].
  - assert (Hne : scoredWindow joined dateStart dateEnd <> [])
      by (rewrite E; discriminate).
    destruct (select_nonempty joined dateStart dateEnd preferLatest Hne)
      as (chosen & m & Hsel & Hm & _ & _ & Hbest & _).
    exists chosen. split; [assumption|]. right.
    apply (nearTie_In _ m chosen Hm) in Hbest. destruct Hbest as [Hin _].
    apply qualityTier_incl, scoredWindow_In in Hin.
    destruct Hin as (img & H1 & H2 & ->).
    apply inDateRange_iff in H2. destruct H2 as (t & Ht & Hr).
    now exists img, t.
Qed.

(** What the first image of a sorted winning tier inherits from the tier. *)
Lemma tier_first_quality (col : ImageCollection) (prop : Image -> option Q)
  (asc : bool) (chosen : Image) :
  In chosen (qualityTier col) ->
  (validTier col <> [] -> In chosen (validTier col)) /\
  (qualityFilter col <> [] -> In chosen (qualityFilter col)).
Proof.
  intros Hin.
  destruct (qualityTier_cases col) as [[H1 E]|[(H1 & H2 & E)|(H1 & H2 & E)]];
    rewrite E in Hin.
  - split; intros _; [|assumption].
    rewrite qualityFilter_validTier in Hin. apply filter_In in Hin. now destruct Hin.
  - split; [intros _; assumption | intros H; now contradiction H].
  - split; intros H; now contradiction H.
Qed.

Lemma validTier_quality (col : ImageCollection) (c : Image) :
  In c (validTier col) ->
  exists v, validFrac c = Some v /\ (minValidFrac <= v)%Q.
Proof.
  unfold validTier. intros H. apply filter_gte_In in H. now destruct H.
Qed.

Lemma qualityFilter_quality (col : ImageCollection) (c : Image) :
  In c (qualityFilter col) ->
  exists v f, validFrac c = Some v /\ (minValidFrac <= v)%Q /\
              cloudFrac c = Some f /\ (f <= maxCloudFrac)%Q.
Proof.
  unfold qualityFilter. intros H. apply filter_lte_In in H.
  destruct H as (H & f & Hf & Hle). apply filter_gte_In in H.
  destruct H as (_ & v & Hv & Hge). now exists v, f.
Qed.

(** X4. The fallback never trades quality away needlessly: if some
    candidate of the window has validFrac >= minValidFrac, so has the image
    selectMinCloudWithTimePref returns; and if some candidate passes the
    strict filter, the image returned also has cloudFrac <= maxCloudFrac. *)
Theorem X4_selection_keeps_quality (joined : ImageCollection)
  (dateStart dateEnd : Z) (preferLatest : bool) (c : Image) :
  In c (validTier (scoredWindow joined dateStart dateEnd)) ->
  exists chosen v,
    selectMinCloudWithTimePref joined dateStart dateEnd preferLatest
      = Some chosen /\
    validFrac chosen = Some v /\ (minValidFrac <= v)%Q /\
    (qualityFilter (scoredWindow joined dateStart dateEnd) <> [] ->
     exists f, cloudFrac chosen = Some f /\ (f <= maxCloudFrac)%Q).
Proof.
  intros Hc.
  assert (Hv : validTier (scoredWindow joined dateStart dateEnd) <> [])
    by (intros E; rewrite E in Hc; destruct Hc).
  assert (Hne : scoredWindow joined dateStart dateEnd <> []).
  { intros E. rewrite E in Hc. destruct Hc. }
  destruct (select_nonempty joined dateStart dateEnd preferLatest Hne)
    as (chosen & m & Hsel & Hm & _ & _ & Hbest & _).
  apply (nearTie_In _ m chosen Hm) in Hbest. destruct Hbest as [Hin _].
  destruct (tier_first_quality _ roiCloud true chosen Hin) as [Hq1 Hq2].
  destruct (validTier_quality _ _ (Hq1 Hv)) as (v & Hvf & Hge).
  exists chosen, v. repeat split; try assumption.
  intros Hs. destruct (qualityFilter_quality _ _ (Hq2 Hs)) as (_ & f & _ & _ & Hf & Hle).
  now exists f.
Qed.

Lemma X4_nearly_clear :
  exists chosen v,
    beforeImg nearlyClear = Some chosen /\
    validFrac chosen = Some v /\ (minValidFrac <= v)%Q /\
    (qualityFilter (scoredWindow nearlyClear preStart preEnd) <> [] ->
     exists f, cloudFrac chosen = Some f /\ (f <= maxCloudFrac)%Q).
Proof.
  apply (X4_selection_keeps_quality nearlyClear preStart preEnd true
           (addMetrics (addCloudProb
              (scene (advance (-2) targetDate)
                 (Some (repeat (Some 5) 49 ++ [Some 41])) [Some 700; Some 650])))).
  left. reflexivity.
Defined.

(** X5. The on-day selection keeps quality in the same way, in the pool it
    draws from (the exact-day pool when it has a candidate, the nearest pool
    otherwise): a candidate there with validFrac >= minValidFrac forces the
    image returned to have it too, and a candidate passing the strict filter
    forces the image returned to pass it, however near the other candidates
    are. *)
Theorem X5_on_day_keeps_quality (joined : ImageCollection)
  (tDate nearestDays : Z) (chosen : Image) :
  selectOnDayExactOrNearest joined tDate nearestDays = Some chosen ->
  exists pool,
    pool = (if 0 <? size (scoredWindow joined tDate (advance 1 tDate))
            then scoredWindow joined tDate (advance 1 tDate)
            else nearestWindow joined tDate nearestDays) /\
    (validTier pool <> [] ->
     exists v, validFrac chosen = Some v /\ (minValidFrac <= v)%Q) /\
    (qualityFilter pool <> [] ->
     exists v f, validFrac chosen = Some v /\ (minValidFrac <= v)%Q /\
                 cloudFrac chosen = Some f /\ (f <= maxCloudFrac)%Q).
Proof.
  intros Hsel. eexists. split; [reflexivity|].
  assert (H : exists b prop c0 pool,
             pool = (if 0 <? size (scoredWindow joined tDate (advance 1 tDate))
                     then scoredWindow joined tDate (advance 1 tDate)
                     else nearestWindow joined tDate nearestDays) /\
             chosen = set_usedExactOnDay b c0 /\
             first (sort prop true (qualityTier pool)) = Some c0).
  { destruct (0 <? size (scoredWindow joined tDate (advance 1 tDate))) eqn:E.
    - apply size_pos_iff in E. rewrite (selectOnDay_exact _ _ _ E) in Hsel.
      destruct (first (sort roiCloud true
                  (qualityTier (scoredWindow joined tDate (advance 1 tDate)))))
        as [c0|] eqn:Hc; [|discriminate].
      injection Hsel as <-. now exists true, roiCloud, c0, (scoredWindow joined tDate (advance 1 tDate)).
    - apply size_pos_false_iff in E. rewrite (selectOnDay_nearest _ _ _ E) in Hsel.
      destruct (first (sort sortKey true
                  (qualityTier (nearestWindow joined tDate nearestDays))))
        as [c0|] eqn:Hc; [|discriminate].
      injection Hsel as <-. now exists false, sortKey, c0, (nearestWindow joined tDate nearestDays). }
  destruct H as (b & prop & c0 & pool & <- & -> & Hfirst).
  destruct (sort_first_least _ _ _ _ Hfirst) as [Hin _].
  destruct (tier_first_quality _ prop true c0 Hin) as [Hq1 Hq2].
  split.
  - intros Hv. exact (validTier_quality _ _ (Hq1 Hv)).
  - intros Hs. exact (qualityFilter_quality _ _ (Hq2 Hs)).
Qed.

Lemma X5_exact_and_nearer :
  exists pool,
    pool = (if 0 <? size (scoredWindow exactAndNearer targetDate (advance 1 targetDate))
            then scoredWindow exactAndNearer targetDate (advance 1 targetDate)
            else nearestWindow exactAndNearer targetDate onFallbackNearestDays) /\
    (validTier pool <> [] ->
     exists v, validFrac
                 (set_usedExactOnDay true
                    (addMetrics (addCloudProb
                       (scene (targetDate + 5 * msPerHour)
                          (Some [Some 30; Some 30]) [Some 710; Some 655]))))
               = Some v /\ (minValidFrac <= v)%Q) /\
    (qualityFilter pool <> [] ->
     exists v f,
       validFrac
         (set_usedExactOnDay true
            (addMetrics (addCloudProb
               (scene (targetDate + 5 * msPerHour)
                  (Some [Some 30; Some 30]) [Some 710; Some 655]))))
       = Some v /\ (minValidFrac <= v)%Q /\
       cloudFrac
         (set_usedExactOnDay true
            (addMetrics (addCloudProb
               (scene (targetDate + 5 * msPerHour)
                  (Some [Some 30; Some 30]) [Some 710; Some 655]))))
       = Some f /\ (f <= maxCloudFrac)%Q).
Proof.
  apply (X5_on_day_keeps_quality exactAndNearer targetDate onFallbackNearestDays).
  reflexivity.
Defined.

(** X6. A candidate that beats every other candidate of the winning tier by
    more than cloudTieTolerance is the image selectMinCloudWithTimePref
    returns, whatever the time preference. *)
Theorem X6_decisive_minimum_wins (joined : ImageCollection)
  (dateStart dateEnd : Z) (preferLatest : bool) (c0 : Image) (m0 : Q) :
  In c0 (qualityTier (scoredWindow joined dateStart dateEnd)) ->
  roiCloud c0 = Some m0 ->
  (forall c v, In c (qualityTier (scoredWindow joined dateStart dateEnd)) ->
               roiCloud c = Some v ->
               c = c0 \/ (m0 + cloudTieTolerance < v)%Q) ->
  selectMinCloudWithTimePref joined dateStart dateEnd preferLatest = Some c0.
Proof.
  intros Hc0 Hm0 Hothers.
  assert (Hne : scoredWindow joined dateStart dateEnd <> []).
  { intros E. rewrite E in Hc0. destruct Hc0. }
  destruct (select_nonempty joined dateStart dateEnd preferLatest Hne)
    as (chosen & m & Hsel & Hm & _ & _ & Hbest & _).
  rewrite Hsel. f_equal.
  apply (nearTie_In _ m chosen Hm) in Hbest.
  destruct Hbest as (Hin & r & Hr & Hle).
  pose proof (aggregate_min_le roiCloud _ m Hm c0 m0 Hc0 Hm0) as Hmin.
  destruct (Hothers chosen r Hin Hr) as [E|Hlt]; [assumption|].
  exfalso. Lqa.lra.
Qed.

Lemma X6_clear_older_hazy_newer :
  beforeImg clearOlderHazyNewer =
  Some (addMetrics (addCloudProb
          (scene (advance (-10) targetDate) (Some [Some 20; Some 20])
             [Some 720; Some 640]))).
Proof.
  apply (X6_decisive_minimum_wins clearOlderHazyNewer preStart preEnd true _ (40 # 2)).
  - right. left. reflexivity.
  - reflexivity.
  - intros c v [<-|[<-|[]]] [= <-]; [right; reflexivity | now left].
Defined.

(** ** What the on-day selection returns *)

Lemma selectMin_time (joined : ImageCollection) (dateStart dateEnd : Z)
  (preferLatest : bool) (c : Image) (t : Z) :
  selectMinCloudWithTimePref joined dateStart dateEnd preferLatest = Some c ->
  time_start c = Some t -> dateStart <= t < dateEnd.
Proof.
  intros Hsel Ht.
  destruct (scoredWindow joined dateStart dateEnd) as [|c0 l] eqn:E.
  - rewrite (selectMinCloudWithTimePref_empty _ _ _ _ E) in Hsel.
    injection Hsel as <-. discriminate.
  - assert (Hne : scoredWindow joined dateStart dateEnd <> [])
      by (rewrite E; discriminate).
    destruct (select_nonempty joined dateStart dateEnd preferLatest Hne)
      as (chosen & m & Hsel' & Hm & _ & _ & Hbest & _).
    rewrite Hsel' in Hsel. injection Hsel as ->.
    apply (nearTie_In _ m c Hm) in Hbest. destruct Hbest as [Hin _].
    apply qualityTier_incl in Hin.
    destruct (scoredWindow_time _ _ _ _ Hin) as (t' & Ht' & Hr).
    rewrite Ht in Ht'. now injection Ht' as <-.
Qed.

Lemma addSortKey_time_start (tDate : Z) (img : Image) :
  time_start (addSortKey tDate img) = time_start img.
Proof.
  unfold addSortKey.
  destruct (time_start img) eqn:Et, (roiCloud img) eqn:Ec; cbn; auto.
Qed.

Lemma nearestWindow_source (joined : ImageCollection) (tDate nearestDays : Z)
  (a : Image) :
  In a (nearestWindow joined tDate nearestDays) <->
  exists img,
    In img joined /\
    inDateRange (advance (- nearestDays) tDate)
      (advance (nearestDays + 1) tDate) img = true /\
    a = addSortKey tDate (addMetrics (addCloudProb img)).
Proof.
  unfold nearestWindow. rewrite in_map_iff. split.
  - intros (s & <- & Hs). apply scoredWindow_In in Hs.
    destruct Hs as (img & H1 & H2 & ->). now exists img.
  - intros (img & H1 & H2 & ->). eexists. split; [reflexivity|].
    apply scoredWindow_In. now exists img.
Qed.

Lemma nearestWindow_empty_iff (joined : ImageCollection) (tDate nearestDays : Z) :
  nearestWindow joined tDate nearestDays = [] <->
  forall img, In img joined ->
              inDateRange (advance (- nearestDays) tDate)
                (advance (nearestDays + 1) tDate) img = false.
Proof.
  unfold nearestWindow. rewrite <- scoredWindow_empty_iff. split.
  - intros H. now apply map_eq_nil in H.
  - intros ->. reflexivity.
Qed.

Lemma exact_day_in_nearest_range (tDate nearestDays : Z) (img : Image) :
  0 <= nearestDays ->
  inDateRange tDate (advance 1 tDate) img = true ->
  inDateRange (advance (- nearestDays) tDate)
    (advance (nearestDays + 1) tDate) img = true.
Proof.
  intros HN H. apply inDateRange_iff in H. destruct H as (t & Ht & Hr).
  apply inDateRange_iff. exists t. split; [assumption|].
  unfold advance, msPerDay in *. lia.
Qed.

(** The two ways [selectOnDayExactOrNearest] produces an image. *)
Lemma selectOnDay_some (joined : ImageCollection) (tDate nearestDays : Z)
  (c : Image) :
  selectOnDayExactOrNearest joined tDate nearestDays = Some c ->
  (exists c0,
      scoredWindow joined tDate (advance 1 tDate) <> [] /\
      first (sort roiCloud true
               (qualityTier (scoredWindow joined tDate (advance 1 tDate))))
        = Some c0 /\
      c = set_usedExactOnDay true c0) \/
  (exists c0,
      scoredWindow joined tDate (advance 1 tDate) = [] /\
      first (sort sortKey true
               (qualityTier (nearestWindow joined tDate nearestDays)))
        = Some c0 /\
      c = set_usedExactOnDay false c0).
Proof.
  intros Hsel.
  destruct (scoredWindow joined tDate (advance 1 tDate)) as [|x l] eqn:E.
  - right. rewrite (selectOnDay_nearest _ _ _ E) in Hsel.
    destruct (first (sort sortKey true
                (qualityTier (nearestWindow joined tDate nearestDays))))
      as [c0|]; [|discriminate].
    injection Hsel as <-. now exists c0.
  - left.
    assert (Hne : scoredWindow joined tDate (advance 1 tDate) <> [])
      by (rewrite E; discriminate).
    rewrite (selectOnDay_exact _ _ _ Hne) in Hsel. rewrite E in *.
    destruct (first (sort roiCloud true (qualityTier (x :: l)))) as [c0|];
      [|discriminate].
    injection Hsel as <-. now exists c0.
Qed.

(** X7. With nearestDays >= 0, selectOnDayExactOrNearest returns no image
    exactly when no image of [joined] is acquired in
    [tDate - nearestDays, tDate + nearestDays + 1 day).  An image it returns
    is the scored form of an image of [joined]: tagged usedExactOnDay = true
    and acquired on the target day, or tagged false, acquired inside the
    fallback window, with no image of [joined] on the target day. *)
Theorem X7_on_day_outcome (joined : ImageCollection) (tDate nearestDays : Z) :
  0 <= nearestDays ->
  (selectOnDayExactOrNearest joined tDate nearestDays = None <->
   forall img, In img joined ->
               inDateRange (advance (- nearestDays) tDate)
                 (advance (nearestDays + 1) tDate) img = false) /\
  (forall c,
      selectOnDayExactOrNearest joined tDate nearestDays = Some c ->
      exists img t,
        In img joined /\ time_start img = Some t /\ time_start c = Some t /\
        ((usedExactOnDay c = Some true /\
          tDate <= t < advance 1 tDate /\
          c = set_usedExactOnDay true (addMetrics (addCloudProb img))) \/
         (usedExactOnDay c = Some false /\
          (forall img', In img' joined ->
                        inDateRange tDate (advance 1 tDate) img' = false) /\
          advance (- nearestDays) tDate <= t < advance (nearestDays + 1) tDate /\
          c = set_usedExactOnDay false
                (addSortKey tDate (addMetrics (addCloudProb img)))))).
Proof.
  intros HN. split.
  - rewrite <- nearestWindow_empty_iff. split.
    + intros Hnone.
      destruct (scoredWindow joined tDate (advance 1 tDate)) as [|x l] eqn:E.
      * rewrite (selectOnDay_nearest _ _ _ E) in Hnone.
        destruct (nearestWindow joined tDate nearestDays) as [|y l'] eqn:En;
          [reflexivity|].
        exfalso.
        assert (Hne : qualityTier (y :: l') <> [])
          by (apply qualityTier_nonempty; discriminate).
        destruct (sort_first_some sortKey true _ Hne) as (c & Hc).
        rewrite Hc in Hnone. discriminate.
      * exfalso.
        assert (Hne : scoredWindow joined tDate (advance 1 tDate) <> [])
          by (rewrite E; discriminate).
        rewrite (selectOnDay_exact _ _ _ Hne) in Hnone.
        destruct (sort_first_some roiCloud true _ (qualityTier_nonempty _ Hne))
          as (c & Hc).
        rewrite Hc in Hnone. discriminate.
    + intros En. apply selectOnDayExactOrNearest_empty; [|assumption].
      apply scoredWindow_empty_iff. intros img Hin.
      destruct (inDateRange tDate (advance 1 tDate) img) eqn:Hr; [|reflexivity].
      apply (exact_day_in_nearest_range tDate nearestDays img HN) in Hr.
      rewrite (proj1 (nearestWindow_empty_iff _ _ _) En img Hin) in Hr.
      discriminate.
  - intros c Hsel.
    destruct (selectOnDay_some _ _ _ _ Hsel)
      as [(c0 & Hne & Hfirst & ->)|(c0 & He & Hfirst & ->)];
      destruct (sort_first_least _ _ _ _ Hfirst) as [Hin _];
      apply qualityTier_incl in Hin.
    + apply scoredWindow_In in Hin. destruct Hin as (img & H1 & H2 & ->).
      apply inDateRange_iff in H2. destruct H2 as (t & Ht & Hr).
      exists img, t. split; [assumption|]. split; [assumption|].
      split; [exact Ht|]. left. now repeat split.
    + apply nearestWindow_source in Hin. destruct Hin as (img & H1 & H2 & ->).
      apply inDateRange_iff in H2. destruct H2 as (t & Ht & Hr).
      exists img, t. split; [assumption|]. split; [assumption|].
      split; [cbn [time_start set_usedExactOnDay];
              rewrite addSortKey_time_start; exact Ht|].
      right. split; [reflexivity|]. split; [now apply scoredWindow_empty_iff|].
      now split.
Qed.

Lemma X7_ten_days_before_and_two_days_after :
  (onImg tenDaysBefore = None <->
   forall img, In img tenDaysBefore ->
               inDateRange (advance (- onFallbackNearestDays) targetDate)
                 (advance (onFallbackNearestDays + 1) targetDate) img = false) /\
  (forall c,
      onImg tenDaysBefore = Some c ->
      exists img t,
        In img tenDaysBefore /\ time_start img = Some t /\ time_start c = Some t /\
        ((usedExactOnDay c = Some true /\
          targetDate <= t < advance 1 targetDate /\
          c = set_usedExactOnDay true (addMetrics (addCloudProb img))) \/
         (usedExactOnDay c = Some false /\
          (forall img', In img' tenDaysBefore ->
                        inDateRange targetDate (advance 1 targetDate) img' = false) /\
          advance (- onFallbackNearestDays) targetDate <= t
            < advance (onFallbackNearestDays + 1) targetDate /\
          c = set_usedExactOnDay false
                (addSortKey targetDate (addMetrics (addCloudProb img)))))).
Proof.
  apply (X7_on_day_outcome tenDaysBefore targetDate onFallbackNearestDays).
  unfold onFallbackNearestDays. lia.
Defined.

Lemma absDiff_bound (tDate nearestDays t : Z) :
  advance (- nearestDays) tDate <= t < advance (nearestDays + 1) tDate ->
  (0 <= Qabs (difference t tDate) < inject_Z (nearestDays + 1))%Q.
Proof.
  intros Hr. split; [apply Qabs_nonneg|].
  apply Qabs_Qlt_condition. unfold difference, advance, msPerDay in *.
  unfold Qlt, Qopp, inject_Z. cbn [Qnum Qden]. lia.
Qed.

(** X8. When the fallback is used (usedExactOnDay = false, nearestDays >= 0)
    the image returned carries its distance to the target and its sort key;
    the distance is less than nearestDays + 1 days, and no candidate of the
    nearest pool's winning tier has a smaller sort key. *)
Theorem X8_fallback_is_nearest_by_key (joined : ImageCollection)
  (tDate nearestDays : Z) (c : Image) :
  selectOnDayExactOrNearest joined tDate nearestDays = Some c ->
  usedExactOnDay c = Some false ->
  exists d k,
    absDiffDays c = Some d /\ sortKey c = Some k /\
    (0 <= d < inject_Z (nearestDays + 1))%Q /\
    (forall c' k',
        In c' (qualityTier (nearestWindow joined tDate nearestDays)) ->
        sortKey c' = Some k' -> (k <= k')%Q).
Proof.
  intros Hsel Hflag.
  destruct (selectOnDay_some _ _ _ _ Hsel)
    as [(c0 & _ & _ & ->)|(c0 & He & Hfirst & ->)]; [discriminate|].
  destruct (sort_first_least _ _ _ _ Hfirst) as [Hin Hord].
  destruct (nearestWindow_In _ _ _ _ (qualityTier_incl _ _ Hin))
    as (img & t & r & _ & _ & Hr & _ & _ & _ & Hd & Hk).
  exists (Qabs (difference t tDate)), (Qabs (difference t tDate) * 1000 + r)%Q.
  split; [exact Hd|]. split; [exact Hk|]. split.
  - now apply absDiff_bound.
  - intros c' k' Hc' Hk'.
    exact (before_sortKey_le c0 c' _ _ (Hord c' Hc') Hk Hk').
Qed.

Lemma X8_two_and_three_days :
  exists d k,
    absDiffDays (set_usedExactOnDay false twoDaysCandidate) = Some d /\
    sortKey (set_usedExactOnDay false twoDaysCandidate) = Some k /\
    (0 <= d < inject_Z (onFallbackNearestDays + 1))%Q /\
    (forall c' k',
        In c' (qualityTier (nearestWindow twoAndThreeDays targetDate
                              onFallbackNearestDays)) ->
        sortKey c' = Some k' -> (k <= k')%Q).
Proof.
  apply (X8_fallback_is_nearest_by_key twoAndThreeDays targetDate
           onFallbackNearestDays (set_usedExactOnDay false twoDaysCandidate));
    reflexivity.
Defined.

(** ** The three images together *)

(** X9. When BEFORE and AFTER are scenes (they carry a time), BEFORE is
    acquired inside [preStart, targetDate) and AFTER inside
    [postStart, postEnd), more than a day later, so the two are never the
    same scene; and an ON image found on the target day lies strictly
    between them. *)
Theorem X9_chronology (joined : ImageCollection) (b a : Image) (tb ta : Z) :
  beforeImg joined = Some b -> afterImg joined = Some a ->
  time_start b = Some tb -> time_start a = Some ta ->
  preStart <= tb < targetDate /\
  postStart <= ta < postEnd /\
  tb + msPerDay < ta /\
  (forall o t, onImg joined = Some o -> usedExactOnDay o = Some true ->
               time_start o = Some t -> tb < t < ta).
Proof.
  intros Hb Ha Htb Hta.
  pose proof (selectMin_time _ _ _ _ _ _ Hb Htb) as Hrb.
  pose proof (selectMin_time _ _ _ _ _ _ Ha Hta) as Hra.
  unfold preEnd in Hrb. split; [assumption|]. split; [assumption|].
  unfold postStart, postEnd, advance in *. split; [lia|].
  intros o t Ho Hflag Ht.
  destruct (selectOnDay_some _ _ _ _ Ho)
    as [(c0 & _ & Hfirst & ->)|(c0 & _ & _ & ->)]; [|discriminate].
  destruct (sort_first_least _ _ _ _ Hfirst) as [Hin _].
  apply qualityTier_incl in Hin.
  destruct (scoredWindow_time _ _ _ _ Hin) as (t' & Ht' & Hr).
  cbn [time_start set_usedExactOnDay] in Ht. rewrite Ht in Ht'.
  injection Ht' as <-. unfold advance in Hr. lia.
Qed.

Lemma X9_before_and_after :
  preStart <= advance (-2) targetDate < targetDate /\
  postStart <= advance 2 targetDate < postEnd /\
  advance (-2) targetDate + msPerDay < advance 2 targetDate /\
  (forall o t, onImg beforeAndAfter = Some o -> usedExactOnDay o = Some true ->
               time_start o = Some t ->
               advance (-2) targetDate < t < advance 2 targetDate).
Proof.
  apply (X9_chronology beforeAndAfter
           (addMetrics (addCloudProb
              (scene (advance (-2) targetDate) (Some [Some 60; Some 60])
                 [Some 700; Some 650])))
           (addMetrics (addCloudProb
              (scene (advance 2 targetDate) (Some [Some 70; Some 70])
                 [Some 720; Some 640]))));
    reflexivity.
Defined.

(** X10. The fallback window overlaps the other two: when the ON image
    comes from the fallback, the scene it was scored from is also a
    candidate of the before selection or of the after selection, so the same
    scene can be exported twice. *)
Theorem X10_fallback_scene_is_before_or_after_candidate
  (joined : ImageCollection) (o : Image) :
  onImg joined = Some o -> usedExactOnDay o = Some false ->
  exists img,
    In img joined /\
    o = set_usedExactOnDay false
          (addSortKey targetDate (addMetrics (addCloudProb img))) /\
    (In (addMetrics (addCloudProb img)) (scoredWindow joined preStart preEnd) \/
     In (addMetrics (addCloudProb img)) (scoredWindow joined postStart postEnd)).
Proof.
  intros Ho Hflag.
  destruct (selectOnDay_some _ _ _ _ Ho)
    as [(c0 & _ & _ & ->)|(c0 & He & Hfirst & ->)]; [discriminate|].
  destruct (sort_first_least _ _ _ _ Hfirst) as [Hin _].
  apply qualityTier_incl, nearestWindow_source in Hin.
  destruct Hin as (img & H1 & H2 & ->).
  exists img. split; [assumption|]. split; [reflexivity|].
  pose proof (proj1 (scoredWindow_empty_iff _ _ _) He img H1) as Hex.
  apply inDateRange_iff in H2. destruct H2 as (t & Ht & Hr).
  unfold inDateRange in Hex. rewrite Ht in Hex.
  apply andb_false_iff in Hex. rewrite Z.leb_gt, Z.ltb_ge in Hex.
  destruct Hex as [Hlt|Hge].
  - left. apply scoredWindow_In. exists img. split; [assumption|].
    split; [|reflexivity]. apply inDateRange_iff. exists t. split; [assumption|].
    unfold preStart, preEnd, advance, onFallbackNearestDays, preLookbackDays,
      msPerDay in *. lia.
  - right. apply scoredWindow_In. exists img. split; [assumption|].
    split; [|reflexivity]. apply inDateRange_iff. exists t. split; [assumption|].
    unfold postStart, postEnd, advance, onFallbackNearestDays, postForwardDays,
      msPerDay in *. lia.
Qed.

Lemma X10_before_and_after :
  exists img,
    In img beforeAndAfter /\
    set_usedExactOnDay false
      (addSortKey targetDate (addMetrics (addCloudProb
         (scene (advance (-2) targetDate) (Some [Some 60; Some 60])
            [Some 700; Some 650]))))
    = set_usedExactOnDay false
        (addSortKey targetDate (addMetrics (addCloudProb img))) /\
    (In (addMetrics (addCloudProb img)) (scoredWindow beforeAndAfter preStart preEnd) \/
     In (addMetrics (addCloudProb img)) (scoredWindow beforeAndAfter postStart postEnd)).
Proof.
  apply (X10_fallback_scene_is_before_or_after_candidate beforeAndAfter);
    reflexivity.
Defined.

(** X11. The after-window is [targetDate + 1 day, targetDate +
    postForwardDays + 1 day), that is 2025-12-01 to 2025-12-11 (exclusive).
    The before-window, the target day and the after-window follow one
    another without gap or overlap: an image is acquired inside
    [preStart, postEnd) exactly when it is acquired inside one of the three,
    and never inside two of them. *)
Theorem X11_windows_partition (img : Image) :
  format postStart = (2025, 12, 1) /\
  format postEnd = (2025, 12, 11) /\
  inDateRange preStart postEnd img =
    (inDateRange preStart preEnd img
     || inDateRange targetDate (advance 1 targetDate) img
     || inDateRange postStart postEnd img) /\
  inDateRange preStart preEnd img
    && inDateRange targetDate (advance 1 targetDate) img = false /\
  inDateRange preStart preEnd img && inDateRange postStart postEnd img = false /\
  inDateRange targetDate (advance 1 targetDate) img
    && inDateRange postStart postEnd img = false.
Proof.
  split; [reflexivity|]. split; [reflexivity|].
  unfold inDateRange. destruct (time_start img) as [t|]; [|now repeat split].
  unfold preStart, preEnd, postStart, postEnd, advance, preLookbackDays,
    postForwardDays, msPerDay.
  set (T := targetDate).
  repeat split;
    repeat match goal with
           | |- context [Z.leb ?x ?y] => destruct (Z.leb_spec x y)
           | |- context [Z.ltb ?x ?y] => destruct (Z.ltb_spec x y)
           end;
    cbn [orb andb]; try reflexivity; exfalso; lia.
Qed.

(** ** The exports *)

Lemma string_append_assoc (a b c : string) :
  ((a ++ b) ++ c = a ++ (b ++ c))%string.
Proof.
  induction a as [|ch a IH]; [reflexivity|]. cbn. now rewrite IH.
Qed.

(** X13. Whatever the three date strings, the three export tasks have
    pairwise different descriptions and pairwise different file-name
    prefixes, and the prefix of each task extends its description by
    _pre30d, _target and _post10d. *)
Theorem X13_export_names_distinct (d : DateDict) :
  NoDup (map description (exportTasks d)) /\
  NoDup (map fileNamePrefix (exportTasks d)) /\
  map (fun e => (fileNamePrefix e, folder e, crs e, scale e)) (exportTasks d) =
    [ ((("BEFORE_RGB8_" ++ d_before d) ++ "_pre30d")%string,
       "SL_pairs"%string, "EPSG:32644"%string, 10);
      ((("ON_RGB8_" ++ d_on d) ++ "_target")%string,
       "SL_pairs"%string, "EPSG:32644"%string, 10);
      ((("AFTER_RGB8_" ++ d_after d) ++ "_post10d")%string,
       "SL_pairs"%string, "EPSG:32644"%string, 10) ] /\
  map description (exportTasks d) =
    [ ("BEFORE_RGB8_" ++ d_before d)%string;
      ("ON_RGB8_" ++ d_on d)%string;
      ("AFTER_RGB8_" ++ d_after d)%string ].
Proof.
  split; [|split; [|split]].
  - cbn. repeat constructor; cbn; intuition discriminate.
  - cbn. repeat constructor; cbn; intuition discriminate.
  - rewrite !string_append_assoc. reflexivity.
  - reflexivity.
Qed.

Lemma target_day_number (t : Z) :
  targetDate <= t < advance 1 targetDate -> t / msPerDay = 20422.
Proof.
  assert (E : targetDate = 20422 * 86400000) by reflexivity.
  unfold advance, msPerDay. rewrite E. intros H.
  symmetry. apply Z.div_unique with (t - 20422 * 86400000); lia.
Qed.

(** X14. An ON image found on the target day is dated 2025-11-30: its
    acquisition time formats to 20251130, so its export is described
    ON_RGB8_20251130 and its files start with ON_RGB8_20251130_target,
    whatever the other two dates are. *)
Theorem X14_exact_day_export_name (joined : ImageCollection) (o : Image)
  (t : Z) (db da : string) :
  onImg joined = Some o -> usedExactOnDay o = Some true ->
  time_start o = Some t ->
  format t = (2025, 11, 30) /\
  formatYYYYMMdd t = "20251130"%string /\
  exists e,
    nth_error (exportTasks (mkDateDict db (formatYYYYMMdd t) da)) 1 = Some e /\
    description e = "ON_RGB8_20251130"%string /\
    fileNamePrefix e = "ON_RGB8_20251130_target"%string.
Proof.
  intros Ho Hflag Ht.
  destruct (selectOnDay_some _ _ _ _ Ho)
    as [(c0 & _ & Hfirst & ->)|(c0 & _ & _ & ->)]; [|discriminate].
  destruct (sort_first_least _ _ _ _ Hfirst) as [Hin _].
  apply qualityTier_incl in Hin.
  destruct (scoredWindow_time _ _ _ _ Hin) as (t' & Ht' & Hr).
  cbn [time_start set_usedExactOnDay] in Ht. rewrite Ht in Ht'.
  injection Ht' as <-.
  pose proof (target_day_number t Hr) as Hd.
  assert (Hf : format t = (2025, 11, 30)).
  { unfold format. rewrite Hd. reflexivity. }
  assert (Hs : formatYYYYMMdd t = "20251130"%string).
  { unfold formatYYYYMMdd. rewrite Hf. reflexivity. }
  split; [assumption|]. split; [assumption|].
  rewrite Hs. eexists. split; [reflexivity|]. split; reflexivity.
Qed.

Lemma X14_exact_and_nearer :
  format (targetDate + 5 * msPerHour) = (2025, 11, 30) /\
  formatYYYYMMdd (targetDate + 5 * msPerHour) = "20251130"%string /\
  exists e,
    nth_error (exportTasks (mkDateDict "20251129"
                 (formatYYYYMMdd (targetDate + 5 * msPerHour)) "20251201")) 1
      = Some e /\
    description e = "ON_RGB8_20251130"%string /\
    fileNamePrefix e = "ON_RGB8_20251130_target"%string.
Proof.
  apply (X14_exact_day_export_name exactAndNearer
           (set_usedExactOnDay true
              (addMetrics (addCloudProb
                 (scene (targetDate + 5 * msPerHour) (Some [Some 30; Some 30])
                    [Some 710; Some 655])))));
    reflexivity.
Defined.
